(** * Wi-Sense: a shallow embedding of the live Wi-Fi dashboard

    The development follows [main.py]: the text scanner
    [parse_wdutil_output], the [LiveData] store with its four deques, the
    viewport handlers [on_scroll] and [on_key_press], the background replay
    [update_background_colors] and the sampling tick [update].

    Modelling conventions.
    - Python floats (timestamps, dBm values, viewport limits) are exact
      rationals [Q]; the constants 1.2, 1/1.2, 0.8, 1.25 and 0.1 are the
      rationals 6/5, 5/6, 4/5, 5/4 and 1/10.  Rounding is not modelled,
      and every number is finite: the properties proved of the viewport
      are about what is stored, compared and clamped, not identities of
      exact arithmetic, and a tick is said to record a sample when it
      returns.
    - Deques and Python lists are Rocq lists, oldest element first.
    - [defaultdict(list)] is a [gmap] from material names to lists.
    - Values read from the environment ([time.time()], [datetime.now()],
      the output of the external command) are explicit arguments.
    - A raised exception is the [None] / [Raise] result of the function. *)

From Stdlib Require Import QArith Qminmax Lqa Ascii String.
From stdpp Require Import gmap strings list sorting.

Local Open Scope Q_scope.

(** ** Comparisons on floats *)

(** Python's [x < y] on numbers. *)
Definition Qlt_bool (x y : Q) : bool :=
  (Qnum x * QDen y <? Qnum y * QDen x)%Z.

(** ** The Live Data Store *)

Definition ROLLING_WINDOW_SEC : Q := 300.
Definition DISPLAY_WINDOW_SEC : Q := 60.

(** The [timestamp] column of an export row is the ISO rendering of a
    clock value; the rendering is kept symbolic. *)
Record CsvRow := {
  timestamp : Q;
  band : string;
  material : string;
  rssi_dbm : Q;
  noise_dbm : Q;
  snr_db : Q
}.

Record LiveData := {
  window_sec : Q;
  times : list Q;
  rssi : list Q;
  noise : list Q;
  snr : list Q;
  snr_by_material : gmap string (list Q);
  material_events : list (Q * string);
  current_material : string;
  current_band : string;
  csv_rows : list CsvRow;
  material_transitions : list (Q * string)
}.

(** [LiveData.__init__] *)
Definition LiveData_init (window : Q) : LiveData := {|
  window_sec := window;
  times := []; rssi := []; noise := []; snr := [];
  snr_by_material := ∅;
  material_events := [];
  current_material := "baseline";
  current_band := "2.4";
  csv_rows := [];
  material_transitions := []
|}.

(** [deque.popleft()]: raises [IndexError] on an empty deque. *)
Definition popleft {A} (d : list A) : option (list A) :=
  match d with
  | [] => None
  | _ :: d' => Some d'
  end.

(** The eviction loop of [append]:
    [while self.times and self.times[0] < cutoff: popleft() x 4].
    The recursion is on the [times] deque, which loses one element per
    iteration. *)
Fixpoint evict (cutoff : Q) (ts rs ns ss : list Q)
  : option (list Q * list Q * list Q * list Q) :=
  match ts with
  | [] => Some (ts, rs, ns, ss)
  | t :: ts' =>
      if Qlt_bool t cutoff then
        rs' ← popleft rs; ns' ← popleft ns; ss' ← popleft ss;
        evict cutoff ts' rs' ns' ss'
      else Some (ts, rs, ns, ss)
  end.

(** [self.snr_by_material[m].append(v)] on a [defaultdict(list)]. *)
Definition accumulate (m : string) (v : Q) (acc : gmap string (list Q))
  : gmap string (list Q) :=
  <[m := default [] (acc !! m) ++ [v]]> acc.

(** [LiveData.append] *)
Definition append (ts r n : Q) (d : LiveData) : option LiveData :=
  let s := r - n in
  let cutoff := ts - window_sec d in
  '(ts', rs', ns', ss') ←
    evict cutoff (times d ++ [ts]) (rssi d ++ [r]) (noise d ++ [n]) (snr d ++ [s]);
  Some {|
    window_sec := window_sec d;
    times := ts'; rssi := rs'; noise := ns'; snr := ss';
    snr_by_material := accumulate (current_material d) s (snr_by_material d);
    material_events := material_events d;
    current_material := current_material d;
    current_band := current_band d;
    csv_rows := csv_rows d ++ [{|
      timestamp := ts;
      band := current_band d;
      material := current_material d;
      rssi_dbm := r;
      noise_dbm := n;
      snr_db := s |}];
    material_transitions :=
      List.filter (fun tm => Qle_bool cutoff (fst tm)) (material_transitions d)
  |}.

(** [LiveData.set_material] *)
Definition set_material (m : string) (t : Q) (d : LiveData) : LiveData := {|
  window_sec := window_sec d;
  times := times d; rssi := rssi d; noise := noise d; snr := snr d;
  snr_by_material := snr_by_material d;
  material_events := material_events d;
  current_material := m;
  current_band := current_band d;
  csv_rows := csv_rows d;
  material_transitions := material_transitions d ++ [(t, m)]
|}.

(** The sentinel row written by [clear_data]; [now] is [datetime.now()]. *)
Definition sentinel_row (now : Q) (b : string) : CsvRow := {|
  timestamp := now;
  band := b;
  material := "--- CLEARED ---";
  rssi_dbm := 0;
  noise_dbm := 0;
  snr_db := 0
|}.

(** [LiveData.clear_data] *)
Definition clear_data (now : Q) (d : LiveData) : LiveData := {|
  window_sec := window_sec d;
  times := []; rssi := []; noise := []; snr := [];
  snr_by_material := ∅;
  material_events := [];
  current_material := "baseline";
  current_band := current_band d;
  csv_rows := csv_rows d ++ [sentinel_row now (current_band d)];
  material_transitions := []
|}.

(** [LiveData.export_csv]: the file written, if any; the store itself is
    not changed. *)
Definition export_csv (filename : string) (d : LiveData)
  : LiveData * option (string * list CsvRow) :=
  (d, match csv_rows d with
      | [] => None
      | _ => Some (filename, csv_rows d)
      end).

(** The band toggle, written inline in [on_key] (key [b]). *)
Definition toggle_band (d : LiveData) : LiveData := {|
  window_sec := window_sec d;
  times := times d; rssi := rssi d; noise := noise d; snr := snr d;
  snr_by_material := snr_by_material d;
  material_events := material_events d;
  current_material := current_material d;
  current_band := if String.eqb (current_band d) "2.4" then "5" else "2.4";
  csv_rows := csv_rows d;
  material_transitions := material_transitions d
|}.

(** The operations a session applies to the store. *)
Inductive Op :=
| OpAppend (ts r n : Q)
| OpSetMaterial (m : string) (t : Q)
| OpClear (now : Q)
| OpExport (filename : string)
| OpToggleBand.

Definition run_op (o : Op) (d : LiveData) : option LiveData :=
  match o with
  | OpAppend ts r n => append ts r n d
  | OpSetMaterial m t => Some (set_material m t d)
  | OpClear now => Some (clear_data now d)
  | OpExport f => Some (fst (export_csv f d))
  | OpToggleBand => Some (toggle_band d)
  end.

(** Running a list of operations, first to last; [None] as soon as one
    raises. *)
Fixpoint run_ops (os : list Op) (d : LiveData) : option LiveData :=
  match os with
  | [] => Some d
  | o :: os' => d' ← run_op o d; run_ops os' d'
  end.

(** ** Python string operations

    The diagnostic text is a byte string: ASCII, except for the em dashes
    of the separator lines, which are kept as their UTF-8 bytes.  Bytes
    above 127 are neither spaces, line breaks, letters nor digits. *)

Local Open Scope string_scope.

Definition code (c : ascii) : nat := nat_of_ascii c.

(** [str.isspace] on one character. *)
Definition py_isspace (c : ascii) : bool :=
  let n := code c in
  ((9 <=? n) && (n <=? 13) || (28 <=? n) && (n <=? 32))%nat.

(** The line boundaries of [str.splitlines]. *)
Definition is_linebreak (c : ascii) : bool :=
  let n := code c in
  ((10 <=? n) && (n <=? 13) || (28 <=? n) && (n <=? 30))%nat.

Definition is_upper_char (c : ascii) : bool :=
  ((65 <=? code c) && (code c <=? 90))%nat.
Definition is_lower_char (c : ascii) : bool :=
  ((97 <=? code c) && (code c <=? 122))%nat.
Definition is_digit (c : ascii) : bool :=
  ((48 <=? code c) && (code c <=? 57))%nat.

(** [cur] is the line being read; a carriage return directly followed by
    a line feed is one boundary; a last line is produced only when it is
    not empty. *)
Fixpoint splitlines_from (cur s : string) : list string :=
  match s with
  | EmptyString => if String.eqb cur "" then [] else [cur]
  | String c s' =>
      if is_linebreak c then
        cur :: match s' with
               | String c' s'' =>
                   if ((code c =? 13) && (code c' =? 10))%nat
                   then splitlines_from "" s''
                   else splitlines_from "" s'
               | EmptyString => splitlines_from "" s'
               end
      else splitlines_from (cur ++ String c "") s'
  end.

(** [str.splitlines] *)
Definition splitlines (s : string) : list string := splitlines_from "" s.

Fixpoint lstrip (s : string) : string :=
  match s with
  | EmptyString => EmptyString
  | String c s' => if py_isspace c then lstrip s' else s
  end.

Fixpoint rstrip (s : string) : string :=
  match s with
  | EmptyString => EmptyString
  | String c s' =>
      match rstrip s' with
      | EmptyString => if py_isspace c then EmptyString else String c EmptyString
      | r => String c r
      end
  end.

(** [str.strip] *)
Definition strip (s : string) : string := rstrip (lstrip s).

(** [str.startswith] *)
Fixpoint startswith (p s : string) : bool :=
  match p, s with
  | EmptyString, _ => true
  | String a p', String b s' => Ascii.eqb a b && startswith p' s'
  | String _ _, EmptyString => false
  end.

(** [sub in s] *)
Fixpoint contains (sub s : string) : bool :=
  startswith sub s ||
  match s with
  | EmptyString => false
  | String _ s' => contains sub s'
  end.

Fixpoint existsb_char (p : ascii -> bool) (s : string) : bool :=
  match s with
  | EmptyString => false
  | String c s' => p c || existsb_char p s'
  end.

(** [str.isupper]: some cased character, and no lowercase one. *)
Definition isupper (s : string) : bool :=
  existsb_char is_upper_char s && negb (existsb_char is_lower_char s).

(** [str.split(sep)] for a one-character separator. *)
Fixpoint split (sep : ascii) (s : string) : list string :=
  match s with
  | EmptyString => [EmptyString]
  | String c s' =>
      if Ascii.eqb c sep then EmptyString :: split sep s'
      else match split sep s' with
           | p :: ps => String c p :: ps
           | [] => [String c EmptyString]
           end
  end.

(** [re.findall(r"[-]?\d+", s)]: the matches, leftmost first, each as
    long as possible.  The scanner keeps what it has matched so far. *)
Inductive MatchState :=
| Idle
| Minus
| Digits (m : string).

Fixpoint findall_from (st : MatchState) (s : string) : list string :=
  match s with
  | EmptyString =>
      match st with
      | Digits m => [m]
      | _ => []
      end
  | String c s' =>
      if is_digit c then
        match st with
        | Idle => findall_from (Digits (String c "")) s'
        | Minus => findall_from (Digits (String "-" (String c ""))) s'
        | Digits m => findall_from (Digits (m ++ String c "")) s'
        end
      else
        let st' := if Ascii.eqb c "-" then Minus else Idle in
        match st with
        | Digits m => m :: findall_from st' s'
        | _ => findall_from st' s'
        end
  end.

Definition findall_int (s : string) : list string := findall_from Idle s.

Definition digit_value (c : ascii) : Z := Z.of_nat (code c - 48).

Fixpoint digits_value (acc : Z) (s : string) : Z :=
  match s with
  | EmptyString => acc
  | String c s' => digits_value (10 * acc + digit_value c)%Z s'
  end.

(** [float(m)] for a match [m] of the pattern above. *)
Definition float_of_match (m : string) : Q :=
  match m with
  | String "-" ds => inject_Z (- digits_value 0 ds)
  | _ => inject_Z (digits_value 0 m)
  end.

(** ** The Metric Parser *)

Inductive result (A : Type) :=
| Return (a : A)
| Raise (e : string).
Arguments Return {A} a.
Arguments Raise {A} e.

(** Four em dashes (U+2014), the start of a separator line. *)
Definition em_dash : string :=
  String (ascii_of_nat 226) (String (ascii_of_nat 128) (String (ascii_of_nat 148) "")).
Definition SEPARATOR : string := em_dash ++ em_dash ++ em_dash ++ em_dash.

Record ScanState := {
  st_rssi : option Q;
  st_noise : option Q;
  in_wifi_section : bool
}.

Definition scan_init : ScanState :=
  {| st_rssi := None; st_noise := None; in_wifi_section := false |}.

(** The body of the two [try] blocks:
    [float(re.findall(r"[-]?\d+", line.split(":")[1].strip())[0])];
    [None] when an [IndexError] is raised and swallowed. *)
Definition extract_value (line : string) : option Q :=
  value_part ← split ":" line !! 1%nat;
  m ← head (findall_int (strip value_part));
  Some (float_of_match m).

(** One iteration of the [for line in txt.splitlines()] loop. *)
Definition scan_line (st : ScanState) (raw : string) : ScanState :=
  let line := strip raw in
  if String.eqb line "WIFI" then
    {| st_rssi := st_rssi st; st_noise := st_noise st; in_wifi_section := true |}
  else if startswith SEPARATOR line && in_wifi_section st then st
  else if in_wifi_section st && (0 <? String.length line)%nat
          && negb (startswith SEPARATOR line) && isupper line
          && negb (contains ":" line) then
    {| st_rssi := st_rssi st; st_noise := st_noise st; in_wifi_section := false |}
  else if in_wifi_section st then
    if contains "RSSI" line && contains ":" line then
      match extract_value line with
      | Some v => {| st_rssi := Some v; st_noise := st_noise st;
                     in_wifi_section := in_wifi_section st |}
      | None => st
      end
    else if contains "Noise" line && contains ":" line then
      match extract_value line with
      | Some v => {| st_rssi := st_rssi st; st_noise := Some v;
                     in_wifi_section := in_wifi_section st |}
      | None => st
      end
    else st
  else st.

Definition scan_lines (st : ScanState) (lines : list string) : ScanState :=
  foldl scan_line st lines.

(** The message of the [ValueError]. *)
Definition PARSE_ERROR : string :=
  "Could not parse RSSI/Noise from wdutil output.".

(** [parse_wdutil_output] of [main.py] *)
Definition parse_wdutil_output (txt : string) : result (Q * Q) :=
  let st := scan_lines scan_init (splitlines txt) in
  match st_rssi st, st_noise st with
  | Some r, Some n => Return (r, n)
  | _, _ => Raise PARSE_ERROR
  end.

(** The copy of the scanner in [test_parse.py] runs the same loop and
    returns the two fields as they are, without raising. *)
Module TestParse.
Definition parse_wdutil_output (txt : string) : option Q * option Q :=
  let st := scan_lines scan_init (splitlines txt) in
  (st_rssi st, st_noise st).
End TestParse.

Definition lf : string := String (ascii_of_nat 10) "".

(** ** The Chart Controller *)

Local Close Scope string_scope.

(** Python's two-argument [max(a, b)] and [min(a, b)]: the first argument
    wins a tie. *)
Definition py_max (a b : Q) : Q := if Qlt_bool a b then b else a.
Definition py_min (a b : Q) : Q := if Qlt_bool b a then b else a.

(** [min(xs)] and [max(xs)] of a sequence; [None] is the [ValueError] of
    an empty one. *)
Definition list_min (xs : list Q) : option Q :=
  match xs with
  | [] => None
  | x :: xs' => Some (foldl py_min x xs')
  end.
Definition list_max (xs : list Q) : option Q :=
  match xs with
  | [] => None
  | x :: xs' => Some (foldl py_max x xs')
  end.

Definition MATERIAL_COLORS : gmap string string :=
  list_to_map [
    ("baseline", "#f8f9fa");
    ("wood", "#f4e4bc");
    ("plastic", "#e3f2fd");
    ("glass", "#f1f8e9");
    ("aluminium", "#eceff1");
    ("copper", "#fff3e0");
    ("steel", "#fafafa")
  ]%string.

(** [MATERIAL_COLORS.get(m, '#ffffff')] *)
Definition material_color (m : string) : string :=
  default "#ffffff"%string (MATERIAL_COLORS !! m).

(** A shaded span [axvspan(x0, x1, color=c)] marked as material
    background. *)
Record Patch := {
  x0 : Q;
  x1 : Q;
  color : string
}.

(** The variables [main] closes over, with the parts of the axes the
    handlers read and write.  The plotted lines and the text of the
    statistics box are functions of [data] and are not kept. *)
Record App := {
  data : LiveData;
  start : Q;
  is_stats_view : bool;
  auto_scroll : bool;
  display_window : Q;
  xlim : Q * Q;
  ylim : Q * Q;
  facecolor : string;
  patches : list Patch;
  console : list string
}.

Definition set_data (d : LiveData) (a : App) : App :=
  {| data := d; start := start a; is_stats_view := is_stats_view a;
     auto_scroll := auto_scroll a; display_window := display_window a;
     xlim := xlim a; ylim := ylim a; facecolor := facecolor a;
     patches := patches a; console := console a |}.

Definition set_xlim (l r : Q) (a : App) : App :=
  {| data := data a; start := start a; is_stats_view := is_stats_view a;
     auto_scroll := auto_scroll a; display_window := display_window a;
     xlim := (l, r); ylim := ylim a; facecolor := facecolor a;
     patches := patches a; console := console a |}.

Definition set_ylim (l r : Q) (a : App) : App :=
  {| data := data a; start := start a; is_stats_view := is_stats_view a;
     auto_scroll := auto_scroll a; display_window := display_window a;
     xlim := xlim a; ylim := (l, r); facecolor := facecolor a;
     patches := patches a; console := console a |}.

Definition set_view (scroll : bool) (w : Q) (a : App) : App :=
  {| data := data a; start := start a; is_stats_view := is_stats_view a;
     auto_scroll := scroll; display_window := w;
     xlim := xlim a; ylim := ylim a; facecolor := facecolor a;
     patches := patches a; console := console a |}.

Definition set_background (fc : string) (ps : list Patch) (a : App) : App :=
  {| data := data a; start := start a; is_stats_view := is_stats_view a;
     auto_scroll := auto_scroll a; display_window := display_window a;
     xlim := xlim a; ylim := ylim a; facecolor := fc;
     patches := ps; console := console a |}.

Definition print (msg : string) (a : App) : App :=
  {| data := data a; start := start a; is_stats_view := is_stats_view a;
     auto_scroll := auto_scroll a; display_window := display_window a;
     xlim := xlim a; ylim := ylim a; facecolor := facecolor a;
     patches := patches a; console := console a ++ [msg] |}.

(** The width of the viewport, [xright - xleft]. *)
Definition width (a : App) : Q := snd (xlim a) - fst (xlim a).

(** [update_x_axis] *)
Definition update_x_axis (a : App) : App :=
  match List.rev (List.map (fun t => t - start a) (times (data a))) with
  | [] => a
  | current_time :: _ =>
      if auto_scroll a then
        set_xlim (py_max 0 (current_time - display_window a)) (current_time + 5) a
      else a
  end.

Record ScrollEvent := {
  inaxes : bool;
  button : string;
  xdata : option Q
}.

(** [on_scroll]; [None] is the exception raised when the viewport has no
    width, before any variable is written. *)
Definition on_scroll (event : ScrollEvent) (a : App) : option App :=
  if is_stats_view a then Some a
  else if negb (inaxes event) then Some a
  else
    let '(xleft, xright) := xlim a in
    let current_width := xright - xleft in
    let zoom_factor :=
      if String.eqb (button event) "down" then 6 # 5 else 1 / (6 # 5) in
    let new_width := current_width * zoom_factor in
    let new_width := py_max 10 (py_min new_width ROLLING_WINDOW_SEC) in
    let xd := match xdata event with
              | Some x => if Qeq_bool x 0 then (xleft + xright) / 2 else x
              | None => (xleft + xright) / 2
              end in
    if Qeq_bool current_width 0 then None
    else
      let new_xleft := xd - new_width * (xd - xleft) / current_width in
      let new_xright := new_xleft + new_width in
      Some (set_view false new_width (set_xlim new_xleft new_xright a)).

(** [on_key_press] *)
Definition on_key_press (key : string) (a : App) : App :=
  if is_stats_view a then a
  else
    let '(xleft, xright) := xlim a in
    let w := xright - xleft in
    if String.eqb key "home" then
      print "[navigation] Auto-scroll enabled"
            (set_view true DISPLAY_WINDOW_SEC a)
    else if String.eqb key "left" then
      set_view false (display_window a)
               (set_xlim (xleft - w * (1 # 10)) (xright - w * (1 # 10)) a)
    else if String.eqb key "right" then
      set_view false (display_window a)
               (set_xlim (xleft + w * (1 # 10)) (xright + w * (1 # 10)) a)
    else if String.eqb key "up" then
      let center := (xleft + xright) / 2 in
      let new_width := w * (4 # 5) in
      set_view false new_width
               (set_xlim (center - new_width / 2) (center + new_width / 2) a)
    else if String.eqb key "down" then
      let center := (xleft + xright) / 2 in
      let new_width := py_min (w * (5 # 4)) ROLLING_WINDOW_SEC in
      set_view false new_width
               (set_xlim (center - new_width / 2) (center + new_width / 2) a)
    else a.

(** An input of the viewport: a wheel event or a key. *)
Inductive ViewAction :=
| Scroll (event : ScrollEvent)
| Key (key : string).

Definition view_step (act : ViewAction) (a : App) : option App :=
  match act with
  | Scroll ev => on_scroll ev a
  | Key k => Some (on_key_press k a)
  end.

Fixpoint view_steps (acts : list ViewAction) (a : App) : option App :=
  match acts with
  | [] => Some a
  | act :: acts' => a' ← view_step act a; view_steps acts' a'
  end.

(** The order of [(time, material)] tuples used by [sorted]. *)
Definition transition_lt (p q : Q * string) : bool :=
  if Qeq_bool (fst p) (fst q) then String.ltb (snd p) (snd q)
  else Qlt_bool (fst p) (fst q).

Fixpoint insert_sorted (p : Q * string) (l : list (Q * string))
  : list (Q * string) :=
  match l with
  | [] => [p]
  | q :: l' => if transition_lt q p then q :: insert_sorted p l'
               else p :: q :: l'
  end.

(** [sorted(l)]: stable, ascending. *)
Definition sorted (l : list (Q * string)) : list (Q * string) :=
  foldr insert_sorted [] l.

(** The [for x_pos, material in transitions] loop: the spans drawn, and
    the last position and material. *)
Fixpoint replay (prev_x : Q) (prev_material : string)
         (transitions : list (Q * string)) : list Patch * (Q * string) :=
  match transitions with
  | [] => ([], (prev_x, prev_material))
  | (x_pos, m) :: rest =>
      let '(ps, last) := replay x_pos m rest in
      (if Qlt_bool prev_x x_pos
       then {| x0 := prev_x; x1 := x_pos; color := material_color prev_material |} :: ps
       else ps, last)
  end.

(** [update_background_colors]: the face colour and the spans it leaves
    on the axes. *)
Definition update_background_colors (a : App) : App :=
  let d := data a in
  let time_range := List.map (fun t => t - start a) (times d) in
  match list_min (times d), list_max (times d),
        list_min time_range, list_max time_range,
        material_transitions d with
  | Some start_time, Some end_time, Some current_x_min, Some current_x_max,
    _ :: _ =>
      let inside :=
        List.filter (fun tm => Qle_bool start_time (fst tm)
                               && Qle_bool (fst tm) end_time)
                    (material_transitions d) in
      let transitions :=
        sorted (List.map (fun tm => (fst tm - start a, snd tm)) inside) in
      let transitions :=
        match List.rev transitions with
        | [] => (transitions ++ [(current_x_max, current_material d)])%list
        | (_, m) :: _ =>
            if String.eqb m (current_material d) then transitions
            else (transitions ++ [(current_x_max, current_material d)])%list
        end in
      let prev_material :=
        match transitions with
        | [] => "baseline"%string
        | (_, m) :: _ => m
        end in
      let '(ps, (prev_x, prev_material)) :=
        replay current_x_min prev_material transitions in
      let ps :=
        if Qlt_bool prev_x current_x_max
        then (ps ++ [{| x0 := prev_x; x1 := current_x_max;
                        color := material_color prev_material |}])%list
        else ps in
      set_background (facecolor a) ps a
  | _, _, _, _, _ =>
      set_background (material_color (current_material d)) [] a
  end.

(** ** The Sampling Loop *)

(** What [subprocess.check_output] did: the text it returned, or the
    exception it raised. *)
Inductive CmdOutcome :=
| CmdOutput (out : string)
| CmdFailed (e : string).

(** [read_wifi_metrics_macos] *)
Definition read_wifi_metrics_macos (c : CmdOutcome) : result (Q * Q) :=
  match c with
  | CmdOutput out => parse_wdutil_output out
  | CmdFailed e => Raise e
  end.

(** [update], one timer tick; [ts] is [time.time()].  [None] is an
    exception leaving the callback. *)
Definition update (ts : Q) (c : CmdOutcome) (a : App) : option App :=
  if is_stats_view a then Some a
  else
    match read_wifi_metrics_macos c with
    | Raise e => Some (print ("Error: " ++ e)%string a)
    | Return (r, n) =>
        d ← append ts r n (data a);
        let a := update_x_axis (set_data d a) in
        let all_y := (rssi d ++ noise d ++ snr d)%list in
        let a := match list_min all_y, list_max all_y with
                 | Some lo, Some hi => set_ylim (lo - 5) (hi + 5) a
                 | _, _ => a
                 end in
        Some (update_background_colors a)
    end.

(** ** Vocabulary of the statements *)

(** A sample as the sampling loop hands it to [append]:
    timestamp, signal, noise. *)
Definition Sample : Type := Q * Q * Q.
Definition s_ts (s : Sample) : Q := fst (fst s).
Definition s_signal (s : Sample) : Q := snd (fst s).
Definition s_noise (s : Sample) : Q := snd s.
Definition s_snr (s : Sample) : Q := s_signal s - s_noise s.

(** The [append] calls for a list of samples, first to last. *)
Definition append_ops (samples : list Sample) : list Op :=
  List.map (fun s => OpAppend (s_ts s) (s_signal s) (s_noise s)) samples.

(** Strictly increasing timestamps. *)
Definition increasing (l : list Q) : Prop := StronglySorted Qlt l.

(** The samples at or after a cutoff, in their order. *)
Definition retained (cutoff : Q) (samples : list Sample) : list Sample :=
  List.filter (fun s => Qle_bool cutoff (s_ts s)) samples.

(** The four deques hold the columns of one list of samples. *)
Definition holds (d : LiveData) (samples : list Sample) : Prop :=
  times d = List.map s_ts samples /\
  rssi d = List.map s_signal samples /\
  noise d = List.map s_noise samples /\
  snr d = List.map s_snr samples.

(** The four deques have one length. *)
Definition aligned (d : LiveData) : Prop :=
  length (rssi d) = length (times d) /\
  length (noise d) = length (times d) /\
  length (snr d) = length (times d).

Definition row_snr_ok (row : CsvRow) : Prop :=
  snr_db row = rssi_dbm row - noise_dbm row.

(** Entry by entry, the [snr] deque is [rssi - noise]. *)
Definition series_snr_ok (d : LiveData) : Prop :=
  snr d = zip_with Qminus (rssi d) (noise d).

(** The samples a run of operations has appended since its last
    [clear_data], first to last. *)
Definition since_clear (os : list Op) : list Sample :=
  foldl (fun acc o => match o with
                      | OpAppend ts r n => acc ++ [(ts, r, n)]
                      | OpClear _ => []
                      | _ => acc
                      end) [] os.

(** What a run of operations is to export, as signal, noise and SNR:
    for each sample appended its signal, its noise and their difference,
    and zeros for each [clear_data]. *)
Definition exported (os : list Op) : list (Q * Q * Q) :=
  foldl (fun acc o => match o with
                      | OpAppend ts r n => acc ++ [(r, n, r - n)]
                      | OpClear _ => acc ++ [(0, 0, 0)]
                      | _ => acc
                      end) [] os.

(** The three value columns of an export row. *)
Definition row_values (row : CsvRow) : Q * Q * Q :=
  (rssi_dbm row, noise_dbm row, snr_db row).

(** ** Further vocabulary *)

(** The samples a fresh store holds after a run of [append] calls. *)
Definition window_of (w : Q) (samples : list Sample) : list Sample :=
  match last samples with
  | Some s => retained (s_ts s - w) samples
  | None => []
  end.

(** The store keeps its invariants under every operation. *)
Definition store_ok (d : LiveData) : Prop :=
  aligned d /\ series_snr_ok d /\ Forall row_snr_ok (csv_rows d).

(** The state [main] sets up before the first tick; the axes start with
    the limits (0, 1). *)
Definition main_init (t0 : Q) : App := {|
  data := LiveData_init ROLLING_WINDOW_SEC;
  start := t0;
  is_stats_view := false;
  auto_scroll := true;
  display_window := DISPLAY_WINDOW_SEC;
  xlim := (0, 1);
  ylim := (0, 1);
  facecolor := material_color "baseline";
  patches := [];
  console := []
|}.

(** A wheel event over the axes, with no [xdata]. *)
Definition wheel (dir : string) : ScrollEvent :=
  {| inaxes := true; button := dir; xdata := None |}.

(** The WIFI sub-section, as the contract words it: the lines after a
    line that is the start marker, up to a new all-caps section header or
    the end of the text; separator lines are not data.  Lines are
    stripped. *)
Definition is_wifi_marker (raw : string) : bool :=
  String.eqb (strip raw) "WIFI".

Definition is_section_header (raw : string) : bool :=
  let line := strip raw in
  negb (String.eqb line "WIFI") && (0 <? String.length line)%nat
  && negb (startswith SEPARATOR line) && isupper line
  && negb (contains ":" line).


(** What a line of the sub-section gives for each field. *)
Definition rssi_of_line (line : string) : option Q :=
  if contains "RSSI" line && contains ":" line then extract_value line
  else None.

Definition noise_of_line (line : string) : option Q :=
  if contains "RSSI" line && contains ":" line then None
  else if contains "Noise" line && contains ":" line then extract_value line
  else None.


(** The parser on a text already cut into lines. *)
Definition parse_lines (lines : list string) : result (Q * Q) :=
  let st := scan_lines scan_init lines in
  match st_rssi st, st_noise st with
  | Some r, Some n => Return (r, n)
  | _, _ => Raise PARSE_ERROR
  end.

Definition no_marker (lines : list string) : bool :=
  forallb (fun raw => negb (is_wifi_marker raw)) lines.

(** What follows the sub-section: nothing, or a section header and then
    lines among which the marker does not come again. *)
Definition closes_section (tail : list string) : bool :=
  match tail with
  | [] => true
  | hdr :: post => is_section_header hdr && no_marker post
  end.












Fixpoint all_chars (p : ascii -> bool) (s : string) : bool :=
  match s with
  | EmptyString => true
  | String c s' => p c && all_chars p s'
  end.


(** ** The key handler

    [on_key] writes the store and the variables [main] closes over, and
    draws on the axes.  The drawing calls (the marker line, [ax.clear],
    the bar chart of the statistics view) are left out: the state below is
    those variables, the files written and whether the figure was closed.
    [t] is [time.time()] and [now] is [datetime.now()]. *)

Definition MATERIAL_KEYS : gmap string string :=
  list_to_map [
    ("1", "baseline");
    ("2", "wood");
    ("3", "plastic");
    ("4", "glass");
    ("5", "aluminium");
    ("6", "copper");
    ("7", "steel")
  ]%string.

(** The seven material names, the values of [MATERIAL_KEYS]. *)
Definition MATERIALS : list string :=
  ["baseline"; "wood"; "plastic"; "glass"; "aluminium"; "copper"; "steel"]%string.

Module Keys.

Record Vars := {
  data : LiveData;
  start : Q;
  is_stats_view : bool;
  auto_scroll : bool;
  display_window : Q;
  console : list string;
  saved : list (string * list CsvRow);
  closed : bool
}.

(** [on_key]; [CSV_FILENAME] is fixed when the module is loaded. *)
Definition on_key (CSV_FILENAME key : string) (t now : Q) (v : Vars) : Vars :=
  match MATERIAL_KEYS !! key with
  | Some m =>
      if is_stats_view v then v
      else
        let d := set_material m t (data v) in
        {| data := d; start := start v; is_stats_view := is_stats_view v;
           auto_scroll := auto_scroll v; display_window := display_window v;
           console := console v ++ [("[material] " ++ current_material d)%string];
           saved := saved v; closed := closed v |}
  | None =>
      if String.eqb key "b" then
        if is_stats_view v then v
        else
          let d := toggle_band (data v) in
          {| data := d; start := start v; is_stats_view := is_stats_view v;
             auto_scroll := auto_scroll v; display_window := display_window v;
             console := console v
                        ++ [("[band] " ++ current_band d ++ " GHz")%string];
             saved := saved v; closed := closed v |}
      else if String.eqb key "s" then
        {| data := data v; start := start v; is_stats_view := true;
           auto_scroll := auto_scroll v; display_window := display_window v;
           console := console v ++ ["[stats] Switched to statistics view"%string];
           saved := saved v; closed := closed v |}
      else if String.eqb key "c" then
        if is_stats_view v then
          {| data := data v; start := start v; is_stats_view := false;
             auto_scroll := true; display_window := DISPLAY_WINDOW_SEC;
             console := console v ++ ["[live] Switched back to live view"%string];
             saved := saved v; closed := closed v |}
        else
          {| data := clear_data now (data v); start := t;
             is_stats_view := is_stats_view v;
             auto_scroll := true; display_window := DISPLAY_WINDOW_SEC;
             console := console v
                        ++ ["[clear] Graph cleared, reset to baseline"%string];
             saved := saved v; closed := closed v |}
      else if String.eqb key "q" then
        {| data := data v; start := start v; is_stats_view := is_stats_view v;
           auto_scroll := auto_scroll v; display_window := display_window v;
           console := console v ++ ["Saving CSV and quitting..."%string];
           saved := saved v ++ match snd (export_csv CSV_FILENAME (data v)) with
                               | Some file => [file]
                               | None => []
                               end;
           closed := true |}
      else v
  end.

(** A key press with the two clock readings it may use. *)
Definition Press : Type := string * Q * Q.

Definition on_keys (CSV_FILENAME : string) (presses : list Press) (v : Vars)
  : Vars :=
  foldl (fun v p => on_key CSV_FILENAME (fst (fst p)) (snd (fst p)) (snd p) v)
        v presses.

(** The material is one of the seven and the band one of the two. *)
Definition condition_ok (d : LiveData) : Prop :=
  current_material d ∈ MATERIALS /\
  (current_band d = "2.4"%string \/ current_band d = "5"%string).

End Keys.

(** ** Vocabulary of the further statements *)

(** The rows an operation adds to [csv_rows]. *)
Definition logged (o : Op) : nat :=
  match o with
  | OpAppend _ _ _ => 1
  | OpClear _ => 1
  | _ => 0
  end.

Definition logged_by (os : list Op) : nat := sum_list (List.map logged os).

Definition is_clear (o : Op) : bool :=
  match o with
  | OpClear _ => true
  | _ => false
  end.

Definition no_clear (os : list Op) : bool := forallb (fun o => negb (is_clear o)) os.

(** The rows exported under a material, and their SNR column. *)
Definition rows_of (m : string) (rows : list CsvRow) : list CsvRow :=
  List.filter (fun row => String.eqb (material row) m) rows.

(** The accumulator of a material, empty when absent as in a
    [defaultdict(list)]. *)
Definition accumulator (d : LiveData) (m : string) : list Q :=
  default [] (snr_by_material d !! m).

(** What reaches the live chart: a timer tick, a wheel event or a
    navigation key. *)
Inductive Event :=
| Tick (ts : Q) (c : CmdOutcome)
| Wheel (event : ScrollEvent)
| NavKey (key : string).

Definition handle (e : Event) (a : App) : option App :=
  match e with
  | Tick ts c => update ts c a
  | Wheel event => on_scroll event a
  | NavKey key => Some (on_key_press key a)
  end.

Fixpoint handle_all (es : list Event) (a : App) : option App :=
  match es with
  | [] => Some a
  | e :: es' => a' ← handle e a; handle_all es' a'
  end.

(** Spans that follow one another from [lo] to [hi], each of positive
    width. *)
Fixpoint tiles (lo : Q) (ps : list Patch) (hi : Q) : Prop :=
  match ps with
  | [] => lo == hi
  | p :: ps' => x0 p == lo /\ x0 p < x1 p /\ tiles (x1 p) ps' hi
  end.

(** A line the scanner passes over: not the marker, not a section header,
    and either a separator line or a line that gives no value. *)
Definition passed_over (raw : string) : bool :=
  negb (is_wifi_marker raw) && negb (is_section_header raw)
  && (startswith SEPARATOR (strip raw)
      || bool_decide (rssi_of_line (strip raw) = None)
         && bool_decide (noise_of_line (strip raw) = None)).

(** The accumulators and the rows written since a point where the
    accumulators were empty. *)
Definition tallied (base : list CsvRow) (d : LiveData) : Prop :=
  exists new,
    csv_rows d = base ++ new /\
    forall m, accumulator d m = List.map snr_db (rows_of m new).

(** The band invariant of the store. *)
Definition band_ok (d : LiveData) : Prop :=
  (current_band d = "2.4"%string \/ current_band d = "5"%string) /\
  Forall (fun row => band row = "2.4"%string \/ band row = "5"%string)
         (csv_rows d).

(** Transitions in time order. *)
Definition by_time (p q : Q * string) : Prop := fst p <= fst q.

(** * Proofs *)

(** ** Comparisons *)

Lemma Qlt_bool_iff x y : Qlt_bool x y = true <-> x < y.
Proof. unfold Qlt_bool, Qlt. apply Z.ltb_lt. Qed.

Lemma Qlt_bool_false x y : Qlt_bool x y = false <-> y <= x.
Proof. unfold Qlt_bool, Qle. rewrite Z.ltb_ge. reflexivity. Qed.

Lemma Qle_bool_false x y : Qle_bool x y = false <-> y < x.
Proof.
  split; intros H.
  - apply Qnot_le_lt. intros Hle. apply Qle_bool_iff in Hle. congruence.
  - destruct (Qle_bool x y) eqn:E; [|reflexivity].
    apply Qle_bool_iff in E. lra.
Qed.

Lemma py_max_spec a b : py_max a b == Qmax a b.
Proof.
  unfold py_max. destruct (Qlt_bool a b) eqn:E.
  - apply Qlt_bool_iff in E. symmetry. apply Q.max_r. lra.
  - apply Qlt_bool_false in E. symmetry. apply Q.max_l. lra.
Qed.

Lemma py_min_spec a b : py_min a b == Qmin a b.
Proof.
  unfold py_min. destruct (Qlt_bool b a) eqn:E.
  - apply Qlt_bool_iff in E. symmetry. apply Q.min_r. lra.
  - apply Qlt_bool_false in E. symmetry. apply Q.min_l. lra.
Qed.

Lemma py_max_lower a b : a <= py_max a b.
Proof.
  unfold py_max. destruct (Qlt_bool a b) eqn:E; [|lra].
  apply Qlt_bool_iff in E. lra.
Qed.

Lemma py_max_upper a b c : a <= c -> b <= c -> py_max a b <= c.
Proof. unfold py_max. destruct (Qlt_bool a b); auto. Qed.

Lemma py_min_upper a b : py_min a b <= b.
Proof.
  unfold py_min. destruct (Qlt_bool b a) eqn:E; [lra|].
  apply Qlt_bool_false in E. lra.
Qed.

Lemma py_min_lower a b c : c <= a -> c <= b -> c <= py_min a b.
Proof. unfold py_min. destruct (Qlt_bool b a); auto. Qed.

(** ** The Live Data Store *)

Lemma run_ops_app os1 os2 d :
  run_ops (os1 ++ os2) d = run_ops os1 d ≫= run_ops os2.
Proof.
  revert d. induction os1 as [|o os1 IH]; intros d; simpl; [reflexivity|].
  destruct (run_op o d) as [d'|]; simpl; [apply IH|reflexivity].
Qed.

(** On aligned deques the eviction loop never pops an empty deque. *)
Lemma evict_aligned cutoff ts rs ns ss :
  length rs = length ts -> length ns = length ts -> length ss = length ts ->
  exists ts' rs' ns' ss',
    evict cutoff ts rs ns ss = Some (ts', rs', ns', ss') /\
    length rs' = length ts' /\ length ns' = length ts' /\
    length ss' = length ts' /\
    (forall t, cutoff <= t -> last ts = Some t -> last ts' = Some t).
Proof.
  revert rs ns ss. induction ts as [|t ts IH]; intros rs ns ss Hr Hn Hs.
  - exists [], rs, ns, ss. simpl. auto.
  - simpl. destruct (Qlt_bool t cutoff) eqn:E.
    + destruct rs as [|r rs]; [discriminate|].
      destruct ns as [|n ns]; [discriminate|].
      destruct ss as [|s ss]; [discriminate|].
      simpl in *. destruct (IH rs ns ss) as (ts' & rs' & ns' & ss' & He & H1 & H2 & H3 & Hl);
        [lia..|].
      exists ts', rs', ns', ss'. repeat split; auto.
      intros u Hu Hlast. apply Hl; auto.
      destruct ts as [|t2 ts]; [|exact Hlast].
      simpl in Hlast. injection Hlast as ->.
      apply Qlt_bool_iff in E. lra.
    + exists (t :: ts), rs, ns, ss. repeat split; auto.
Qed.

Lemma evict_holds cutoff (l : list Sample) :
  increasing (List.map s_ts l) ->
  evict cutoff (List.map s_ts l) (List.map s_signal l)
        (List.map s_noise l) (List.map s_snr l)
  = Some (List.map s_ts (retained cutoff l),
          List.map s_signal (retained cutoff l),
          List.map s_noise (retained cutoff l),
          List.map s_snr (retained cutoff l)).
Proof.
  induction l as [|s l IH]; intros Hs; [reflexivity|].
  simpl in Hs. inversion Hs as [|? ? Hs' Hall]; subst.
  simpl. destruct (Qlt_bool (s_ts s) cutoff) eqn:E.
  - simpl. rewrite (IH Hs'). apply Qlt_bool_iff in E.
    apply Qle_bool_false in E. rewrite E. reflexivity.
  - apply Qlt_bool_false in E.
    assert (Hl : retained cutoff l = l).
    { unfold retained. apply forallb_filter_id, forallb_forall.
      intros x Hx. apply Qle_bool_iff.
      rewrite List.Forall_forall in Hall.
      assert (s_ts s < s_ts x) by (apply Hall, in_map, Hx). lra. }
    apply Qle_bool_iff in E. unfold retained in *. simpl.
    rewrite E, Hl. reflexivity.
Qed.

Lemma retained_Forall (P : Q -> Prop) cutoff l :
  Forall P (List.map s_ts l) -> Forall P (List.map s_ts (retained cutoff l)).
Proof.
  induction l as [|s l IH]; intros H; [constructor|].
  simpl in H. apply Forall_cons in H as [Hs Hl].
  unfold retained in *. simpl.
  destruct (Qle_bool cutoff (s_ts s)); [constructor|]; auto.
Qed.

Lemma increasing_retained cutoff l :
  increasing (List.map s_ts l) -> increasing (List.map s_ts (retained cutoff l)).
Proof.
  unfold increasing.
  induction l as [|s l IH]; intros H; [constructor|].
  simpl in H. apply StronglySorted_cons in H as [Hall Hs].
  pose proof (retained_Forall _ cutoff _ Hall) as Hall'.
  unfold retained in *. simpl.
  destruct (Qle_bool cutoff (s_ts s)); [|auto].
  simpl. apply StronglySorted_cons. auto.
Qed.

Lemma retained_retained c c' l :
  c' <= c -> retained c (retained c' l) = retained c l.
Proof.
  intros Hc. unfold retained. induction l as [|s l IH]; [reflexivity|].
  simpl. destruct (Qle_bool c' (s_ts s)) eqn:E'; simpl; rewrite IH.
  - reflexivity.
  - apply Qle_bool_false in E'.
    assert (E : Qle_bool c (s_ts s) = false) by (apply Qle_bool_false; lra).
    rewrite E. reflexivity.
Qed.

Lemma retained_app c l1 l2 :
  retained c (l1 ++ l2) = retained c l1 ++ retained c l2.
Proof. apply List.filter_app. Qed.

(** One [append] on deques that hold the samples [K]. *)
Lemma append_holds d K s :
  holds d K -> increasing (List.map s_ts (K ++ [s])) ->
  exists d',
    append (s_ts s) (s_signal s) (s_noise s) d = Some d' /\
    window_sec d' = window_sec d /\
    holds d' (retained (s_ts s - window_sec d) (K ++ [s])).
Proof.
  intros (Ht & Hr & Hn & Hs) Hinc. unfold append.
  rewrite Ht, Hr, Hn, Hs.
  change (List.map s_ts K ++ [s_ts s]) with (List.map s_ts K ++ List.map s_ts [s]).
  change (List.map s_signal K ++ [s_signal s])
    with (List.map s_signal K ++ List.map s_signal [s]).
  change (List.map s_noise K ++ [s_noise s])
    with (List.map s_noise K ++ List.map s_noise [s]).
  change (List.map s_snr K ++ [s_signal s - s_noise s])
    with (List.map s_snr K ++ List.map s_snr [s]).
  rewrite <- !List.map_app, (evict_holds _ _ Hinc). simpl.
  eexists. split; [reflexivity|]. simpl. repeat split.
Qed.

Lemma appends_hold w samples :
  increasing (List.map s_ts samples) ->
  exists d,
    run_ops (append_ops samples) (LiveData_init w) = Some d /\
    window_sec d = w /\
    holds d (window_of w samples).
Proof.
  induction samples as [|s L IH] using rev_ind; intros Hinc.
  - exists (LiveData_init w). repeat split.
  - unfold increasing in Hinc. rewrite List.map_app in Hinc.
    pose proof (StronglySorted_app_1_l _ _ _ Hinc) as HL.
    destruct (IH HL) as (d & Hrun & Hw & Hd).
    assert (Hlt : Forall (fun t => t < s_ts s) (List.map s_ts L)).
    { apply Forall_forall. intros t Ht.
      apply (StronglySorted_app_1_elem_of _ _ _ _ _ Hinc Ht). simpl. constructor. }
    destruct (append_holds d (window_of w L) s Hd) as (d' & Happ & Hw' & Hd').
    { unfold increasing, window_of. destruct (last L) as [s'|]; simpl.
      - rewrite List.map_app. apply StronglySorted_app_2.
        + intros t1 t2 H1 H2. apply list_elem_of_singleton in H2 as ->.
          pose proof (retained_Forall _ (s_ts s' - w) _ Hlt) as HF.
          rewrite Forall_forall in HF. auto.
        + apply increasing_retained, HL.
        + repeat constructor.
      - repeat constructor. }
    exists d'. unfold append_ops. rewrite List.map_app, run_ops_app.
    fold (append_ops L). rewrite Hrun. simpl. rewrite Happ. simpl.
    split; [reflexivity|]. split; [congruence|].
    rewrite Hw in Hd'.
    replace (window_of w (L ++ [s]))
      with (retained (s_ts s - w) (window_of w L ++ [s])); [exact Hd'|].
    unfold window_of at 2. rewrite last_snoc, !retained_app. f_equal.
    unfold window_of. destruct (last L) as [s'|] eqn:El.
    + apply retained_retained.
      assert (s_ts s' < s_ts s); [|lra].
      rewrite Forall_forall in Hlt. apply Hlt.
      apply list_elem_of_fmap. exists s'. split; [reflexivity|].
      apply last_Some_elem_of, El.
    + apply last_None in El. subst L. reflexivity.
Qed.

(** C1. For every run of [append] calls with strictly increasing
    timestamps on a fresh store, after the last call (hence after each
    call, every prefix being such a run) the four deques hold exactly the
    samples whose timestamp is at least the latest timestamp minus the
    retention window, in their order of arrival, which is increasing
    timestamp order. *)
Theorem live_series_is_window w (samples : list Sample) (s : Sample) :
  increasing (List.map s_ts (samples ++ [s])) ->
  exists d,
    run_ops (append_ops (samples ++ [s])) (LiveData_init w) = Some d /\
    holds d (retained (s_ts s - w) (samples ++ [s])) /\
    increasing (times d).
Proof.
  intros Hinc. destruct (appends_hold w _ Hinc) as (d & Hrun & _ & Hd).
  unfold window_of in Hd. rewrite last_snoc in Hd.
  exists d. split; [exact Hrun|]. split; [exact Hd|].
  destruct Hd as (-> & _). apply increasing_retained, Hinc.
Qed.

Lemma live_series_is_window_witness :
  exists d,
    run_ops (append_ops ([(0, -40, -90); (100, -41, -90)] ++ [(350, -42, -91)]))
            (LiveData_init ROLLING_WINDOW_SEC) = Some d /\
    holds d (retained (350 - ROLLING_WINDOW_SEC)
                      ([(0, -40, -90); (100, -41, -90)] ++ [(350, -42, -91)])) /\
    increasing (times d).
Proof.
  apply (live_series_is_window ROLLING_WINDOW_SEC
           [(0, -40, -90); (100, -41, -90)] (350, -42, -91)).
  unfold increasing. simpl. repeat constructor.
Defined.

Example window_example :
  run_ops (append_ops [(0, -40, -90); (100, -41, -90); (350, -42, -91)])
          (LiveData_init ROLLING_WINDOW_SEC)
  ≫= (fun d => Some (times d, rssi d, snr d))
  = Some ([100; 350], [-41; -42], [-41 - -90; -42 - -91]).
Proof. reflexivity. Qed.

Lemma evict_snr cutoff ts rs ns ss ts' rs' ns' ss' :
  evict cutoff ts rs ns ss = Some (ts', rs', ns', ss') ->
  ss = zip_with Qminus rs ns -> ss' = zip_with Qminus rs' ns'.
Proof.
  revert rs ns ss. induction ts as [|t ts IH]; intros rs ns ss He Hz.
  - simpl in He. congruence.
  - simpl in He. destruct (Qlt_bool t cutoff); [|congruence].
    destruct rs as [|r rs]; [discriminate|].
    destruct ns as [|n ns]; [discriminate|].
    destruct ss as [|s0 ss]; [discriminate|].
    simpl in He, Hz. apply (IH _ _ _ He). congruence.
Qed.

Lemma append_ok ts r n d :
  store_ok d ->
  exists d', append ts r n d = Some d' /\ store_ok d' /\
             window_sec d' = window_sec d /\
             (window_sec d >= 0 -> last (times d') = Some ts).
Proof.
  intros ((Hr & Hn & Hs) & Hz & Hrows). unfold append.
  destruct (evict_aligned (ts - window_sec d) (times d ++ [ts]) (rssi d ++ [r])
              (noise d ++ [n]) (snr d ++ [r - n]))
    as (ts' & rs' & ns' & ss' & He & H1 & H2 & H3 & Hlast);
    [rewrite !length_app; simpl; lia..|].
  rewrite He. simpl. eexists. split; [reflexivity|].
  split; [|split; [reflexivity|]].
  - split; [|split]; simpl.
    + repeat split; assumption.
    + unfold series_snr_ok. simpl. apply (evict_snr _ _ _ _ _ _ _ _ _ He).
      rewrite zip_with_app by lia. rewrite <- Hz. reflexivity.
    + apply Forall_app. split; [exact Hrows|].
      repeat constructor.
  - simpl. intros Hw. apply Hlast; [lra|]. apply last_snoc.
Qed.

Lemma run_op_ok o d :
  store_ok d ->
  exists d', run_op o d = Some d' /\ store_ok d' /\ window_sec d' = window_sec d.
Proof.
  intros Hd. destruct o as [ts r n|m t|now|f|]; simpl.
  - destruct (append_ok ts r n d Hd) as (d' & H1 & H2 & H3 & _). eauto.
  - eexists. split; [reflexivity|]. split; [exact Hd|reflexivity].
  - eexists. split; [reflexivity|]. split; [|reflexivity].
    destruct Hd as (_ & _ & Hrows).
    split; [|split]; [repeat split|reflexivity|].
    simpl. apply Forall_app. split; [exact Hrows|]. repeat constructor.
  - eexists. split; [reflexivity|]. split; [exact Hd|reflexivity].
  - eexists. split; [reflexivity|]. split; [exact Hd|reflexivity].
Qed.

Lemma run_ops_ok os d :
  store_ok d ->
  exists d', run_ops os d = Some d' /\ store_ok d' /\ window_sec d' = window_sec d.
Proof.
  revert d. induction os as [|o os IH]; intros d Hd; simpl.
  - eauto.
  - destruct (run_op_ok o d Hd) as (d1 & H1 & Hok & Hw). rewrite H1. simpl.
    destruct (IH d1 Hok) as (d2 & H2 & Hok2 & Hw2).
    exists d2. split; [exact H2|]. split; [exact Hok2|congruence].
Qed.

Lemma init_ok w : store_ok (LiveData_init w).
Proof. repeat split. constructor. Qed.

(** The eviction loop removes entries from the front, the same number
    from each deque, and stops before an entry at or after the cutoff. *)
Lemma evict_drop cutoff ts rs ns ss ts' rs' ns' ss' :
  evict cutoff ts rs ns ss = Some (ts', rs', ns', ss') ->
  exists k,
    ts' = drop k ts /\ rs' = drop k rs /\ ns' = drop k ns /\ ss' = drop k ss /\
    (forall t, last ts = Some t -> cutoff <= t -> (k < length ts)%nat).
Proof.
  revert rs ns ss. induction ts as [|t ts IH]; intros rs ns ss He.
  - simpl in He. injection He as <- <- <- <-. exists 0%nat.
    repeat split; auto. intros t Hl. discriminate.
  - simpl in He. destruct (Qlt_bool t cutoff) eqn:E.
    + destruct rs as [|r rs]; [discriminate|].
      destruct ns as [|n ns]; [discriminate|].
      destruct ss as [|s0 ss]; [discriminate|].
      simpl in He. destruct (IH _ _ _ He) as (k & H1 & H2 & H3 & H4 & Hk).
      exists (S k). repeat split; auto.
      intros u Hl Hu. destruct ts as [|t2 ts].
      * simpl in Hl. injection Hl as ->. apply Qlt_bool_iff in E. lra.
      * simpl. apply -> Nat.succ_lt_mono. apply (Hk u); [exact Hl|exact Hu].
    + injection He as <- <- <- <-. exists 0%nat. repeat split; auto.
      intros; simpl; lia.
Qed.

Lemma holds_aligned d kept : holds d kept -> aligned d.
Proof.
  intros (Ht & Hr & Hn & Hs). unfold aligned.
  rewrite Ht, Hr, Hn, Hs, !length_map. auto.
Qed.

(** One operation on a store that holds a suffix of the samples appended
    so far and has exported the rows due so far. *)
Lemma run_op_tracks o d acc rows :
  (exists kept, kept `suffix_of` acc /\ holds d kept) ->
  List.map row_values (csv_rows d) = rows ->
  exists d',
    run_op o d = Some d' /\
    (exists kept,
       kept `suffix_of` match o with
                        | OpAppend ts r n => acc ++ [(ts, r, n)]
                        | OpClear _ => []
                        | _ => acc
                        end /\ holds d' kept) /\
    List.map row_values (csv_rows d')
    = match o with
      | OpAppend ts r n => rows ++ [(r, n, r - n)]
      | OpClear _ => rows ++ [(0, 0, 0)]
      | _ => rows
      end.
Proof.
  intros (kept & Hsuf & Hd) Hrows.
  destruct o as [ts r n|m t|now|f|]; simpl.
  - pose proof (holds_aligned _ _ Hd) as (Hlr & Hln & Hls).
    destruct (evict_aligned (ts - window_sec d) (times d ++ [ts]) (rssi d ++ [r])
                (noise d ++ [n]) (snr d ++ [r - n]))
      as (ts' & rs' & ns' & ss' & He & _);
      [rewrite !length_app; simpl; lia..|].
    unfold append. rewrite He. simpl. eexists. split; [reflexivity|].
    destruct (evict_drop _ _ _ _ _ _ _ _ _ He) as (k & -> & -> & -> & -> & _).
    destruct Hd as (Ht & Hr & Hn & Hs). split.
    + exists (drop k (kept ++ [(ts, r, n)])). split.
      * etransitivity; [apply suffix_drop|]. apply suffix_app, Hsuf.
      * unfold holds. simpl. rewrite Ht, Hr, Hn, Hs.
        rewrite <- !skipn_map, !map_app. repeat split.
    + simpl. rewrite map_app, Hrows. reflexivity.
  - eexists. split; [reflexivity|]. split; [exists kept; auto|exact Hrows].
  - eexists. split; [reflexivity|]. split.
    + exists []. split; [reflexivity|repeat split].
    + simpl. rewrite map_app, Hrows. reflexivity.
  - eexists. split; [reflexivity|]. split; [exists kept; auto|exact Hrows].
  - eexists. split; [reflexivity|]. split; [exists kept; auto|exact Hrows].
Qed.

Lemma run_ops_tracks os d acc rows :
  (exists kept, kept `suffix_of` acc /\ holds d kept) ->
  List.map row_values (csv_rows d) = rows ->
  exists d',
    run_ops os d = Some d' /\
    (exists kept,
       kept `suffix_of`
         foldl (fun acc o => match o with
                             | OpAppend ts r n => acc ++ [(ts, r, n)]
                             | OpClear _ => []
                             | _ => acc
                             end) acc os /\ holds d' kept) /\
    List.map row_values (csv_rows d')
    = foldl (fun acc o => match o with
                          | OpAppend ts r n => acc ++ [(r, n, r - n)]
                          | OpClear _ => acc ++ [(0, 0, 0)]
                          | _ => acc
                          end) rows os.
Proof.
  revert d acc rows. induction os as [|o os IH]; intros d acc rows Hk Hrows.
  - exists d. auto.
  - destruct (run_op_tracks o d acc rows Hk Hrows) as (d1 & H1 & Hk1 & Hrows1).
    simpl. rewrite H1. simpl. apply IH; assumption.
Qed.

(** C2. Appending a sample to a store reached from [__init__] returns;
    it exports one row with the signal, the noise and the SNR
    [signal - noise], and adds the timestamp, the signal, the noise and
    [signal - noise] at the end of the four deques, which then lose only
    entries from the front (not the new one when the window is not
    negative).  So after any run the deques hold, column by column with
    [snr = signal - noise], a suffix of the samples appended since the
    last clear, and the rows of [csv_rows] carry, in order, signal, noise
    and [signal - noise] of every sample appended (and zeros for every
    clear). *)
Theorem snr_is_signal_minus_noise w os ts r n :
  exists d d',
    run_ops os (LiveData_init w) = Some d /\
    append ts r n d = Some d' /\
    csv_rows d'
    = csv_rows d ++ [{| timestamp := ts; band := current_band d;
                        material := current_material d;
                        rssi_dbm := r; noise_dbm := n; snr_db := r - n |}] /\
    (exists k,
       times d' = drop k (times d ++ [ts]) /\
       rssi d' = drop k (rssi d ++ [r]) /\
       noise d' = drop k (noise d ++ [n]) /\
       snr d' = drop k (snr d ++ [r - n]) /\
       (0 <= w -> (k <= length (times d))%nat)) /\
    (exists kept, kept `suffix_of` since_clear os /\ holds d kept) /\
    List.map row_values (csv_rows d) = exported os /\
    (forall row, row ∈ csv_rows d' -> snr_db row = rssi_dbm row - noise_dbm row).
Proof.
  destruct (run_ops_tracks os (LiveData_init w) [] [])
    as (d & Hrun & (kept & Hsuf & Hd) & Hrows);
    [exists []; split; [reflexivity|repeat split]|reflexivity|].
  destruct (run_ops_ok os _ (init_ok w)) as (d0 & Hrun0 & Hok & Hw).
  assert (d0 = d) by congruence. subst d0.
  destruct (append_ok ts r n d Hok) as (d' & Happ & (_ & _ & Hrows') & _).
  exists d, d'. split; [exact Hrun|]. split; [exact Happ|].
  unfold append in Happ.
  destruct (evict _ _ _ _ _) as [[[[ts' rs'] ns'] ss']|] eqn:He; [|discriminate].
  simpl in Happ. injection Happ as <-. simpl.
  split; [reflexivity|]. split; [|split; [|split]].
  - destruct (evict_drop _ _ _ _ _ _ _ _ _ He) as (k & -> & -> & -> & -> & Hk).
    exists k. repeat split; try reflexivity.
    intros H0. specialize (Hk ts (last_snoc _ _)).
    rewrite length_app in Hk. simpl in Hk. rewrite Hw in Hk.
    assert (ts - w <= ts) by lra. specialize (Hk H). lia.
  - exists kept. split; [exact Hsuf|exact Hd].
  - exact Hrows.
  - intros row Hrow. simpl in Hrows'. rewrite Forall_forall in Hrows'.
    apply Hrows', Hrow.
Qed.

Lemma snr_is_signal_minus_noise_witness :
  exists d d' k,
    run_ops [OpAppend 0 (-40) (-90); OpSetMaterial "wood" 1]
            (LiveData_init ROLLING_WINDOW_SEC) = Some d /\
    append 2 (-55) (-91) d = Some d' /\
    snr d' = drop k (snr d ++ [-55 - -91]) /\ (k <= length (times d))%nat /\
    List.map row_values (csv_rows d) = [(-40, -90, -40 - -90)].
Proof.
  destruct (snr_is_signal_minus_noise ROLLING_WINDOW_SEC
              [OpAppend 0 (-40) (-90); OpSetMaterial "wood" 1] 2 (-55) (-91))
    as (d & d' & Hrun & Happ & _ & (k & _ & _ & _ & Hs & Hk) & _ & Hexp & _).
  exists d, d', k. split; [exact Hrun|]. split; [exact Happ|].
  split; [exact Hs|]. split; [|exact Hexp].
  apply Hk. unfold ROLLING_WINDOW_SEC. lra.
Defined.

(** What one [append] writes: the row it exports and the value it adds
    to the accumulator of the current material. *)
Lemma append_row ts r n d d' :
  append ts r n d = Some d' ->
  last (csv_rows d') = Some {| timestamp := ts; band := current_band d;
                               material := current_material d;
                               rssi_dbm := r; noise_dbm := n;
                               snr_db := r - n |} /\
  (snr_by_material d' !! current_material d
   = Some (default [] (snr_by_material d !! current_material d) ++ [r - n])).
Proof.
  unfold append. intros H.
  destruct (evict _ _ _ _ _) as [[[[ts' rs'] ns'] ss']|]; [|discriminate].
  simpl in H. injection H as <-. simpl. split.
  - apply last_snoc.
  - unfold accumulate. apply lookup_insert_eq.
Qed.

(** C3. [clear_data] empties the four deques, the transition list and the
    per-material accumulators, resets the material to "baseline", keeps
    the band, and appends exactly one sentinel row to [csv_rows], whose
    earlier rows are unchanged. *)
Theorem clear_data_resets now d :
  times (clear_data now d) = [] /\
  rssi (clear_data now d) = [] /\
  noise (clear_data now d) = [] /\
  snr (clear_data now d) = [] /\
  material_transitions (clear_data now d) = [] /\
  snr_by_material (clear_data now d) = ∅ /\
  current_material (clear_data now d) = "baseline"%string /\
  current_band (clear_data now d) = current_band d /\
  csv_rows (clear_data now d)
  = csv_rows d ++ [{| timestamp := now; band := current_band d;
                      material := "--- CLEARED ---";
                      rssi_dbm := 0; noise_dbm := 0; snr_db := 0 |}] /\
  length (csv_rows (clear_data now d)) = S (length (csv_rows d)) /\
  take (length (csv_rows d)) (csv_rows (clear_data now d)) = csv_rows d.
Proof.
  repeat split; simpl.
  - rewrite length_app. simpl. lia.
  - rewrite take_app_length. reflexivity.
Qed.

(** C10. After any run of store operations on a fresh store the four
    deques have one length, so that the eviction loop never pops an empty
    deque and every operation returns; and when the retention window is
    not negative, a further [append] leaves its own timestamp as the last
    entry of a non-empty, aligned series. *)
Theorem deques_stay_aligned w os :
  exists d,
    run_ops os (LiveData_init w) = Some d /\
    aligned d /\
    (0 <= w -> forall ts r n,
       exists d', append ts r n d = Some d' /\ aligned d' /\
                  times d' <> [] /\ last (times d') = Some ts).
Proof.
  destruct (run_ops_ok os _ (init_ok w)) as (d & Hrun & Hok & Hw).
  exists d. split; [exact Hrun|]. split; [apply Hok|].
  intros Hpos ts r n.
  destruct (append_ok ts r n d Hok) as (d' & Happ & Hok' & _ & Hlast).
  exists d'. split; [exact Happ|]. split; [apply Hok'|].
  assert (Hl : last (times d') = Some ts).
  { apply Hlast. rewrite Hw. simpl. lra. }
  split; [|exact Hl]. intros E. rewrite E in Hl. discriminate.
Qed.

Lemma deques_stay_aligned_witness :
  exists d,
    run_ops [OpAppend 1 (-40) (-90); OpSetMaterial "wood" 2; OpClear 3;
             OpAppend 4 (-41) (-90); OpExport "out.csv"; OpToggleBand]
            (LiveData_init ROLLING_WINDOW_SEC) = Some d /\
    aligned d /\
    exists d', append 400 (-42) (-91) d = Some d' /\ aligned d' /\
               times d' <> [] /\ last (times d') = Some 400.
Proof.
  destruct (deques_stay_aligned ROLLING_WINDOW_SEC
              [OpAppend 1 (-40) (-90); OpSetMaterial "wood" 2; OpClear 3;
               OpAppend 4 (-41) (-90); OpExport "out.csv"; OpToggleBand])
    as (d & Hrun & Hal & Happ).
  exists d. split; [exact Hrun|]. split; [exact Hal|].
  apply Happ. vm_compute. discriminate.
Defined.

(** With a negative window the sample just appended is evicted again. *)
Example negative_window_evicts_all :
  (append 10 (-40) (-90) (LiveData_init (-1))) ≫= (fun d => Some (times d))
  = Some [].
Proof. reflexivity. Qed.

(** ** The viewport *)

(** A wheel zoom that takes effect leaves a width between 10 and the
    retention window, whatever the viewport was. *)
Lemma on_scroll_clamps event a a' :
  is_stats_view a = false -> inaxes event = true ->
  on_scroll event a = Some a' ->
  10 <= width a' /\ width a' <= ROLLING_WINDOW_SEC /\
  width a' == display_window a' /\ auto_scroll a' = false.
Proof.
  intros Hlive Hin. unfold on_scroll. rewrite Hlive, Hin. simpl.
  destruct (xlim a) as [xleft xright] eqn:Ex.
  destruct (Qeq_bool (xright - xleft) 0); [discriminate|].
  intros H. injection H as <-. unfold width. simpl.
  set (nw := py_max 10 _).
  assert (H10 : 10 <= nw) by apply py_max_lower.
  assert (H300 : nw <= ROLLING_WINDOW_SEC).
  { apply py_max_upper; [unfold ROLLING_WINDOW_SEC; lra|apply py_min_upper]. }
  set (nl := _ - _ / _).
  assert (Hw : nl + nw - nl == nw) by ring.
  rewrite Hw. repeat split; auto.
Qed.

(** The zoom-out key never widens the viewport beyond the retention
    window, and never narrows it. *)
Lemma down_key_bounds a :
  is_stats_view a = false -> 0 <= width a ->
  width (on_key_press "down" a) <= ROLLING_WINDOW_SEC /\
  (width a <= ROLLING_WINDOW_SEC -> width a <= width (on_key_press "down" a)).
Proof.
  intros Hlive. unfold on_key_press, width. rewrite Hlive.
  destruct (xlim a) as [xleft xright]. simpl. intros Hw.
  set (nw := py_min _ _).
  assert (H300 : nw <= ROLLING_WINDOW_SEC) by apply py_min_upper.
  assert (E : (xleft + xright) / 2 + nw / 2 - ((xleft + xright) / 2 - nw / 2) == nw)
    by field.
  rewrite E. split; [exact H300|]. intros Hle.
  apply py_min_lower; [|exact Hle]. lra.
Qed.

(** C4 (the zoom-in key). From the viewport a clamped wheel zoom-in
    leaves, ten seconds wide, the up-arrow key of [on_key_press] produces
    a viewport eight seconds wide: the width leaves [10, 300]. *)
Theorem up_key_leaves_zoom_range :
  exists a1 a2,
    view_steps [Scroll (wheel "up")] (set_xlim 0 5 (main_init 0)) = Some a1 /\
    width a1 == 10 /\
    view_steps [Scroll (wheel "up"); Key "up"] (set_xlim 0 5 (main_init 0))
    = Some a2 /\
    width a2 == 8 /\ display_window a2 == 8 /\ width a2 < 10.
Proof.
  eexists. eexists. split; [vm_compute; reflexivity|].
  split; [reflexivity|]. split; [vm_compute; reflexivity|].
  split; [reflexivity|]. split; reflexivity.
Qed.

(** ** The background replay *)

Lemma foldl_py_min_shift s x l :
  foldl py_min (x - s) (List.map (fun t => t - s) l)
  = foldl py_min x l - s.
Proof.
  revert x. induction l as [|y l IH]; intros x; simpl; [reflexivity|].
  assert (E : py_min (x - s) (y - s) = py_min x y - s).
  { unfold py_min. destruct (Qlt_bool y x) eqn:E1.
    - apply Qlt_bool_iff in E1.
      assert (E2 : Qlt_bool (y - s) (x - s) = true) by (apply Qlt_bool_iff; lra).
      rewrite E2. reflexivity.
    - apply Qlt_bool_false in E1.
      assert (E2 : Qlt_bool (y - s) (x - s) = false) by (apply Qlt_bool_false; lra).
      rewrite E2. reflexivity. }
  rewrite E. apply IH.
Qed.

Lemma foldl_py_max_shift s x l :
  foldl py_max (x - s) (List.map (fun t => t - s) l)
  = foldl py_max x l - s.
Proof.
  revert x. induction l as [|y l IH]; intros x; simpl; [reflexivity|].
  assert (E : py_max (x - s) (y - s) = py_max x y - s).
  { unfold py_max. destruct (Qlt_bool x y) eqn:E1.
    - apply Qlt_bool_iff in E1.
      assert (E2 : Qlt_bool (x - s) (y - s) = true) by (apply Qlt_bool_iff; lra).
      rewrite E2. reflexivity.
    - apply Qlt_bool_false in E1.
      assert (E2 : Qlt_bool (x - s) (y - s) = false) by (apply Qlt_bool_false; lra).
      rewrite E2. reflexivity. }
  rewrite E. apply IH.
Qed.

(** Elapsed times have their extremes where the timestamps have them. *)
Lemma list_min_shift s l :
  list_min (List.map (fun t => t - s) l) = (fun m => m - s) <$> list_min l.
Proof. destruct l; simpl; [reflexivity|]. f_equal. apply foldl_py_min_shift. Qed.

Lemma list_max_shift s l :
  list_max (List.map (fun t => t - s) l) = (fun m => m - s) <$> list_max l.
Proof. destruct l; simpl; [reflexivity|]. f_equal. apply foldl_py_max_shift. Qed.

(** C5. With samples from time 0 to time 30, the transitions
    [(10, wood); (25, glass)] and the current material glass, the replay
    shades 0 to 10 in the colour of the first transition's material
    (wood), 10 to 25 in the colour of wood and 25 to 30 in the colour of
    glass. *)
Theorem background_replay_example a :
  start a = 0 ->
  list_min (times (data a)) = Some 0 ->
  list_max (times (data a)) = Some 30 ->
  material_transitions (data a) = [(10, "wood"%string); (25, "glass"%string)] ->
  current_material (data a) = "glass"%string ->
  patches (update_background_colors a)
  = [ {| x0 := 0; x1 := 10; color := material_color "wood" |};
      {| x0 := 10; x1 := 25; color := material_color "wood" |};
      {| x0 := 25; x1 := 30; color := material_color "glass" |} ] /\
  facecolor (update_background_colors a) = facecolor a.
Proof.
  intros Hs Hmin Hmax Htr Hcur. unfold update_background_colors.
  rewrite list_min_shift, list_max_shift, Hmin, Hmax, Htr, Hcur, Hs.
  vm_compute. split; reflexivity.
Qed.

Lemma background_replay_example_witness :
  let a := set_data
             (set_material "glass" 25
                (set_material "wood" 10
                   {| window_sec := 300; times := [0; 15; 30];
                      rssi := [-40; -45; -50]; noise := [-90; -90; -90];
                      snr := [50; 45; 40]; snr_by_material := ∅;
                      material_events := []; current_material := "baseline";
                      current_band := "2.4"; csv_rows := [];
                      material_transitions := [] |}))
             (main_init 0) in
  patches (update_background_colors a)
  = [ {| x0 := 0; x1 := 10; color := "#f4e4bc" |};
      {| x0 := 10; x1 := 25; color := "#f4e4bc" |};
      {| x0 := 25; x1 := 30; color := "#f1f8e9" |} ] /\
  facecolor (update_background_colors a) = facecolor a.
Proof.
  intros a. apply (background_replay_example a); reflexivity.
Defined.

(** ** The sampling tick *)

(** C9. On a tick whose acquisition or parsing raises, [update] returns
    normally: the store and every other part of the state are what they
    were, except that in live view the error is printed; the tick after
    it then finds the store it would have found without the failed
    tick. *)
Theorem failed_tick_changes_nothing ts c e a :
  read_wifi_metrics_macos c = Raise e ->
  exists a',
    update ts c a = Some a' /\
    data a' = data a /\
    (start a', is_stats_view a', auto_scroll a', display_window a')
    = (start a, is_stats_view a, auto_scroll a, display_window a) /\
    (xlim a', ylim a', facecolor a', patches a')
    = (xlim a, ylim a, facecolor a, patches a) /\
    console a' = (if is_stats_view a then console a
                  else console a ++ [("Error: " ++ e)%string]) /\
    (forall ts2 c2, data <$> update ts2 c2 a' = data <$> update ts2 c2 a).
Proof.
  intros Hfail. unfold update at 1. rewrite Hfail.
  destruct (is_stats_view a) eqn:Hv.
  - exists a. rewrite Hv. repeat split.
  - eexists. split; [reflexivity|]. simpl. rewrite ?Hv.
    do 4 (split; [reflexivity|]).
    intros ts2 c2. unfold update. simpl. rewrite Hv.
    destruct (read_wifi_metrics_macos c2) as [[r n]|e2]; [|reflexivity].
    simpl. destruct (append ts2 r n (data a)) as [d|]; [|reflexivity].
    simpl. f_equal.
    unfold update_background_colors, update_x_axis. simpl.
    repeat match goal with
           | |- context [match ?x with _ => _ end] => destruct x; simpl
           end; reflexivity.
Qed.

Lemma failed_tick_changes_nothing_witness :
  let txt := ("WIFI" ++ lf ++ "RSSI : -40 dBm" ++ lf)%string in
  let e := "Could not parse RSSI/Noise from wdutil output."%string in
  exists a',
    update 12 (CmdOutput txt) (main_init 0) = Some a' /\
    data a' = data (main_init 0) /\
    (start a', is_stats_view a', auto_scroll a', display_window a')
    = (start (main_init 0), is_stats_view (main_init 0),
       auto_scroll (main_init 0), display_window (main_init 0)) /\
    (xlim a', ylim a', facecolor a', patches a')
    = (xlim (main_init 0), ylim (main_init 0), facecolor (main_init 0),
       patches (main_init 0)) /\
    console a' = (if is_stats_view (main_init 0) then console (main_init 0)
                  else console (main_init 0) ++ [("Error: " ++ e)%string]) /\
    (forall ts2 c2, data <$> update ts2 c2 a' = data <$> update ts2 c2 (main_init 0)).
Proof.
  intros txt e.
  apply (failed_tick_changes_nothing 12 (CmdOutput txt) e (main_init 0)).
  vm_compute. reflexivity.
Defined.

(** ** The Metric Parser *)


Lemma scan_line_outside st raw :
  in_wifi_section st = false -> is_wifi_marker raw = false ->
  scan_line st raw = st.
Proof.
  unfold is_wifi_marker, scan_line. intros Hf ->. rewrite Hf.
  rewrite andb_false_r. reflexivity.
Qed.

Lemma scan_line_separator st raw :
  is_wifi_marker raw = false -> in_wifi_section st = true ->
  startswith SEPARATOR (strip raw) = true ->
  scan_line st raw = st.
Proof.
  unfold is_wifi_marker, scan_line. intros -> -> ->. reflexivity.
Qed.

Lemma scan_line_header st raw :
  in_wifi_section st = true -> is_section_header raw = true ->
  scan_line st raw = {| st_rssi := st_rssi st; st_noise := st_noise st;
                        in_wifi_section := false |}.
Proof.
  unfold is_section_header, scan_line. intros Hf H.
  repeat (apply andb_prop in H as [H ?]).
  apply negb_true_iff in H. rewrite H, Hf.
  match goal with E : negb (startswith _ _) = true |- _ =>
    apply negb_true_iff in E; rewrite E end.
  match goal with E : (0 <? _)%nat = true |- _ => rewrite E end.
  match goal with E : isupper _ = true |- _ => rewrite E end.
  match goal with E : negb (contains _ _) = true |- _ => rewrite E end.
  reflexivity.
Qed.

(** A data line of the sub-section updates the two fields by
    [rssi_of_line] and [noise_of_line]. *)
Lemma scan_line_data st raw :
  is_wifi_marker raw = false -> in_wifi_section st = true ->
  startswith SEPARATOR (strip raw) = false ->
  is_section_header raw = false ->
  scan_line st raw
  = {| st_rssi := match rssi_of_line (strip raw) with
                  | Some v => Some v | None => st_rssi st end;
       st_noise := match noise_of_line (strip raw) with
                   | Some v => Some v | None => st_noise st end;
       in_wifi_section := true |}.
Proof.
  unfold is_wifi_marker, is_section_header, scan_line, rssi_of_line, noise_of_line.
  intros Hm Hf Hsep Hh. rewrite Hm, Hf, Hsep in *. simpl in *.
  rewrite Hh.
  destruct st as [r n f]. simpl in *. subst f.
  destruct (contains "RSSI" (strip raw) && contains ":" (strip raw)).
  - destruct (extract_value (strip raw)); reflexivity.
  - destruct (contains "Noise" (strip raw) && contains ":" (strip raw));
      [destruct (extract_value (strip raw))|]; reflexivity.
Qed.



Lemma parse_as_lines txt : parse_wdutil_output txt = parse_lines (splitlines txt).
Proof. reflexivity. Qed.

Example parse_sample :
  parse_wdutil_output ("WIFI" ++ lf ++ "RSSI : -40 dBm" ++ lf ++ "Noise : -90 dBm" ++ lf)
  = Return (-40 # 1, -90 # 1)%Q.
Proof. vm_compute. reflexivity. Qed.


(** *** Lines outside the sub-section *)

Lemma scan_lines_outside st lines :
  in_wifi_section st = false -> no_marker lines = true ->
  scan_lines st lines = st.
Proof.
  unfold scan_lines, no_marker. revert st.
  induction lines as [|raw rest IH]; intros st Hf H; [reflexivity|].
  simpl in H. apply andb_prop in H as [H1 H2]. apply negb_true_iff in H1.
  cbn [foldl]. rewrite (scan_line_outside _ _ Hf H1). apply IH; assumption.
Qed.

Lemma scan_lines_tail st tail :
  closes_section tail = true ->
  st_rssi (scan_lines st tail) = st_rssi st /\
  st_noise (scan_lines st tail) = st_noise st.
Proof.
  destruct tail as [|hdr post]; [split; reflexivity|].
  unfold closes_section. intros H. apply andb_prop in H as [Hh Hp].
  unfold scan_lines. cbn [foldl]. fold (scan_lines (scan_line st hdr) post).
  destruct (in_wifi_section st) eqn:Hf.
  - rewrite (scan_line_header _ _ Hf Hh).
    rewrite scan_lines_outside by (assumption || reflexivity). split; reflexivity.
  - assert (Hm : is_wifi_marker hdr = false).
    { unfold is_section_header, is_wifi_marker in *.
      repeat (apply andb_prop in Hh as [Hh ?]). apply negb_true_iff, Hh. }
    rewrite (scan_line_outside _ _ Hf Hm).
    rewrite scan_lines_outside by assumption. split; reflexivity.
Qed.

(** C8. In a text made of lines before the WIFI marker, the marker, the
    lines after it, and then either nothing or a section header followed
    by lines without the marker, the parser's result is the one it gives
    on the marker and the lines after it alone: no RSSI or Noise value on
    a line before the marker or after the closing header reaches the
    result. *)
Theorem outside_values_ignored txt pre wifi body tail :
  splitlines txt = pre ++ wifi :: body ++ tail ->
  no_marker pre = true ->
  is_wifi_marker wifi = true ->
  closes_section tail = true ->
  parse_wdutil_output txt = parse_lines (wifi :: body).
Proof.
  intros Hlines Hpre Hw Htail. rewrite parse_as_lines, Hlines.
  unfold parse_lines, scan_lines.
  rewrite foldl_app. fold (scan_lines scan_init pre).
  rewrite (scan_lines_outside scan_init pre eq_refl Hpre).
  rewrite app_comm_cons, foldl_app.
  fold (scan_lines (foldl scan_line scan_init (wifi :: body)) tail).
  destruct (scan_lines_tail (foldl scan_line scan_init (wifi :: body)) tail Htail)
    as [-> ->].
  reflexivity.
Qed.

Lemma outside_values_ignored_witness :
  parse_wdutil_output
    ("BLUETOOTH" ++ lf ++ "RSSI : -55 dBm" ++ lf ++ "Noise : -80 dBm" ++ lf
     ++ "WIFI" ++ lf ++ "RSSI : -40 dBm" ++ lf ++ "Noise : -90 dBm" ++ lf
     ++ "BLUETOOTH" ++ lf ++ "RSSI : -70 dBm" ++ lf)%string
  = parse_lines ["WIFI"; "RSSI : -40 dBm"; "Noise : -90 dBm"]%string.
Proof.
  apply (outside_values_ignored _
           ["BLUETOOTH"; "RSSI : -55 dBm"; "Noise : -80 dBm"]%string
           "WIFI"%string
           ["RSSI : -40 dBm"; "Noise : -90 dBm"]%string
           ["BLUETOOTH"; "RSSI : -70 dBm"]%string); reflexivity.
Defined.

Example outside_values_ignored_value :
  parse_lines ["WIFI"; "RSSI : -40 dBm"; "Noise : -90 dBm"]%string
  = Return (-40 # 1, -90 # 1).
Proof. reflexivity. Qed.

(** *** The value of a line *)

Local Open Scope string_scope.



Lemma string_app_cons c (s t : string) : String c s ++ t = String c (s ++ t).
Proof. reflexivity. Qed.






Lemma digit_not_minus c : is_digit c = true -> Ascii.eqb c "-" = false.
Proof.
  destruct c as [[] [] [] [] [] [] [] []]; vm_compute; intros H;
    try discriminate; reflexivity.
Qed.












(** *** Which lines give a value *)



















(** A line with both labels counts as an RSSI line only. *)
Example both_labels_is_rssi_line :
  rssi_of_line "Noise RSSI : -40" = Some (inject_Z (-40)) /\
  noise_of_line "Noise RSSI : -40" = None.
Proof. split; reflexivity. Qed.

(** The scanner of [test_parse.py] returns the two fields without
    raising; [main.py] raises exactly when one of them is missing. *)
Lemma parse_agrees_with_test_parse txt :
  parse_wdutil_output txt
  = match TestParse.parse_wdutil_output txt with
    | (Some r, Some n) => Return (r, n)
    | _ => Raise PARSE_ERROR
    end.
Proof.
  unfold parse_wdutil_output, TestParse.parse_wdutil_output.
  destruct (st_rssi (scan_lines scan_init (splitlines txt))),
           (st_noise (scan_lines scan_init (splitlines txt))); reflexivity.
Qed.

(** * Further properties of the code *)

Local Close Scope string_scope.

(** ** The store: what each operation leaves alone *)

Lemma append_frame ts r n d d' :
  append ts r n d = Some d' ->
  csv_rows d' = csv_rows d ++ [{| timestamp := ts; band := current_band d;
                                  material := current_material d;
                                  rssi_dbm := r; noise_dbm := n;
                                  snr_db := r - n |}] /\
  current_material d' = current_material d /\
  current_band d' = current_band d /\
  window_sec d' = window_sec d /\
  snr_by_material d'
  = accumulate (current_material d) (r - n) (snr_by_material d) /\
  material_transitions d'
  = List.filter (fun tm => Qle_bool (ts - window_sec d) (fst tm))
                (material_transitions d).
Proof.
  unfold append. intros H.
  destruct (evict _ _ _ _ _) as [[[[ts' rs'] ns'] ss']|]; [|discriminate].
  simpl in H. injection H as <-. repeat split.
Qed.

Lemma run_op_rows o d d' :
  run_op o d = Some d' ->
  exists new, csv_rows d' = csv_rows d ++ new /\ length new = logged o.
Proof.
  destruct o as [ts r n|m t|now|f|]; simpl; intros H.
  - apply append_frame in H as (-> & _). eexists. split; reflexivity.
  - injection H as <-. exists []. rewrite app_nil_r. split; reflexivity.
  - injection H as <-. eexists. split; reflexivity.
  - injection H as <-. exists []. rewrite app_nil_r. split; reflexivity.
  - injection H as <-. exists []. rewrite app_nil_r. split; reflexivity.
Qed.

(** X1. The export log only grows: after any run of store operations the
    rows it held come first, unchanged, followed by one new row for each
    [append] and each [clear_data] of the run; [export_csv] writes the
    whole log when the run logged something, and leaves the store as it
    is. *)
Theorem export_log_grows os d d' f :
  run_ops os d = Some d' ->
  exists new,
    csv_rows d' = csv_rows d ++ new /\
    length new = logged_by os /\
    fst (export_csv f d') = d' /\
    ((0 < logged_by os)%nat ->
     snd (export_csv f d') = Some (f, csv_rows d ++ new)).
Proof.
  revert d. induction os as [|o os IH]; intros d H.
  - simpl in H. injection H as <-. exists []. rewrite app_nil_r.
    repeat split. unfold logged_by. simpl. lia.
  - simpl in H. destruct (run_op o d) as [d1|] eqn:Ho; [|discriminate].
    simpl in H. destruct (run_op_rows _ _ _ Ho) as (new1 & E1 & L1).
    destruct (IH _ H) as (new2 & E2 & L2 & _ & _).
    exists (new1 ++ new2). rewrite E2, E1, <- app_assoc.
    split; [reflexivity|]. split.
    { rewrite length_app, L1, L2. reflexivity. }
    split; [reflexivity|].
    intros Hpos. unfold export_csv. simpl. rewrite E2, E1, <- app_assoc.
    assert (Hlen : (0 < length (csv_rows d ++ new1 ++ new2))%nat).
    { rewrite !length_app, L1, L2. unfold logged_by in *. simpl in Hpos. lia. }
    destruct (csv_rows d ++ new1 ++ new2); [simpl in Hlen; lia|reflexivity].
Qed.

Lemma export_log_grows_witness :
  exists new,
    csv_rows (clear_data 3 (set_material "wood" 2 (LiveData_init 300)))
    = csv_rows (LiveData_init 300) ++ new /\
    length new = 1%nat /\
    snd (export_csv "out.csv"
           (clear_data 3 (set_material "wood" 2 (LiveData_init 300))))
    = Some ("out.csv"%string, csv_rows (LiveData_init 300) ++ new).
Proof.
  destruct (export_log_grows [OpSetMaterial "wood" 2; OpClear 3]
              (LiveData_init 300)
              (clear_data 3 (set_material "wood" 2 (LiveData_init 300)))
              "out.csv"%string eq_refl)
    as (new & E & L & _ & Hfile).
  exists new. split; [exact E|]. split; [exact L|].
  apply Hfile. vm_compute. lia.
Defined.

Lemma rows_of_app m rows1 rows2 :
  rows_of m (rows1 ++ rows2) = rows_of m rows1 ++ rows_of m rows2.
Proof. apply List.filter_app. Qed.

Lemma tallied_step base o d d' :
  is_clear o = false -> run_op o d = Some d' ->
  tallied base d -> tallied base d'.
Proof.
  intros Hc Ho (new & E & Hacc).
  destruct o as [ts r n|m0 t|now|f|]; simpl in *; try discriminate.
  - apply append_frame in Ho as (Er & Hm & _ & _ & Es & _).
    eexists. split; [rewrite Er, E, <- app_assoc; reflexivity|].
    intros m. unfold accumulator. rewrite Es, rows_of_app, List.map_app.
    unfold accumulate, rows_of at 2. simpl.
    destruct (String.eqb_spec (current_material d) m) as [->|Hne].
    + rewrite lookup_insert_eq. simpl. f_equal. apply Hacc.
    + rewrite lookup_insert_ne by exact Hne. simpl. rewrite app_nil_r. apply Hacc.
  - injection Ho as <-. exists new. split; [exact E|exact Hacc].
  - injection Ho as <-. exists new. split; [exact E|exact Hacc].
  - injection Ho as <-. exists new. split; [exact E|exact Hacc].
Qed.

Lemma tallied_run base os d d' :
  no_clear os = true -> run_ops os d = Some d' ->
  tallied base d -> tallied base d'.
Proof.
  revert d. induction os as [|o os IH]; intros d Hc H Ht; simpl in *.
  - injection H as <-. exact Ht.
  - apply andb_prop in Hc as [Ho Hos]. apply negb_true_iff in Ho.
    destruct (run_op o d) as [d1|] eqn:E; [|discriminate]. simpl in H.
    apply (IH d1 Hos H). exact (tallied_step _ _ _ _ Ho E Ht).
Qed.

Lemma tallied_empty d :
  snr_by_material d = ∅ -> tallied (csv_rows d) d.
Proof.
  intros E. exists []. rewrite app_nil_r. split; [reflexivity|].
  intros m. unfold accumulator. rewrite E, lookup_empty. reflexivity.
Qed.

(** X2. On a store that was never cleared, the accumulator of each
    material is the SNR column of the exported rows tagged with that
    material, in order; so it has as many values as the material has
    rows. *)
Theorem accumulators_match_rows w os d :
  no_clear os = true ->
  run_ops os (LiveData_init w) = Some d ->
  forall m,
    accumulator d m = List.map snr_db (rows_of m (csv_rows d)) /\
    length (accumulator d m) = length (rows_of m (csv_rows d)).
Proof.
  intros Hc Hrun m.
  destruct (tallied_run _ _ _ _ Hc Hrun (tallied_empty (LiveData_init w) eq_refl))
    as (new & E & Hacc).
  simpl in E. rewrite E, Hacc, length_map. split; reflexivity.
Qed.

Lemma accumulators_match_rows_witness :
  exists d,
    run_ops [OpSetMaterial "wood" 2; OpAppend 3 (-40) (-90)] (LiveData_init 300)
    = Some d /\
    accumulator d "wood" = List.map snr_db (rows_of "wood" (csv_rows d)) /\
    length (accumulator d "wood") = length (rows_of "wood" (csv_rows d)).
Proof.
  eexists. split; [vm_compute; reflexivity|].
  apply (accumulators_match_rows 300
           [OpSetMaterial "wood" 2; OpAppend 3 (-40) (-90)]); [reflexivity|].
  vm_compute. reflexivity.
Defined.

(** X3. [clear_data] empties the accumulators but keeps the rows: after a
    clear and further operations without a clear, the log is the old
    rows, the sentinel row, then the new rows, and the accumulator of each
    material is the SNR column of its new rows only. *)
Theorem accumulators_restart_at_clear now os d d' :
  no_clear os = true ->
  run_ops os (clear_data now d) = Some d' ->
  exists new,
    csv_rows d' = csv_rows d ++ sentinel_row now (current_band d) :: new /\
    forall m, accumulator d' m = List.map snr_db (rows_of m new).
Proof.
  intros Hc Hrun.
  destruct (tallied_run _ _ _ _ Hc Hrun (tallied_empty (clear_data now d) eq_refl))
    as (new & E & Hacc).
  exists new. split; [|exact Hacc].
  rewrite E. simpl. rewrite <- app_assoc. reflexivity.
Qed.

Lemma accumulators_restart_at_clear_witness :
  let d0 := set_material "wood" 2 (LiveData_init 300) in
  exists d' new,
    run_ops [OpAppend 5 (-42) (-91)] (clear_data 4 d0) = Some d' /\
    csv_rows d' = csv_rows d0 ++ sentinel_row 4 (current_band d0) :: new /\
    forall m, accumulator d' m = List.map snr_db (rows_of m new).
Proof.
  intros d0.
  assert (H : exists d', run_ops [OpAppend 5 (-42) (-91)] (clear_data 4 d0) = Some d')
    by (eexists; vm_compute; reflexivity).
  destruct H as [d' H].
  destruct (accumulators_restart_at_clear 4 [OpAppend 5 (-42) (-91)] d0 d'
              eq_refl H) as (new & E & Hacc).
  exists d', new. split; [exact H|]. split; [exact E|exact Hacc].
Defined.

(** After a clear the rows of a material outnumber its accumulator. *)
Example rows_outlive_the_accumulator :
  run_ops [OpAppend 1 (-40) (-90); OpClear 4; OpAppend 5 (-42) (-91)]
          (LiveData_init 300)
  ≫= (fun d => Some (length (rows_of "baseline" (csv_rows d)),
                     length (accumulator d "baseline")))
  = Some (2%nat, 1%nat).
Proof. vm_compute. reflexivity. Qed.

Lemma run_op_band o d d' : run_op o d = Some d' -> band_ok d -> band_ok d'.
Proof.
  intros Ho [Hb Hrows]. destruct o as [ts r n|m t|now|f|]; simpl in Ho.
  - apply append_frame in Ho as (Er & _ & Eb & _). split; [congruence|].
    rewrite Er. apply Forall_app. split; [exact Hrows|].
    constructor; [exact Hb|constructor].
  - injection Ho as <-. split; assumption.
  - injection Ho as <-. split; [exact Hb|]. simpl.
    apply Forall_app. split; [exact Hrows|]. constructor; [exact Hb|constructor].
  - injection Ho as <-. split; assumption.
  - injection Ho as <-. split; [|exact Hrows]. simpl.
    destruct (String.eqb (current_band d) "2.4"); auto.
Qed.

(** X4. From [__init__] on, the band of the store and of every exported
    row is "2.4" or "5", and toggling the band twice gives the store
    back. *)
Theorem band_is_two_valued w os d :
  run_ops os (LiveData_init w) = Some d ->
  (current_band d = "2.4"%string \/ current_band d = "5"%string) /\
  Forall (fun row => band row = "2.4"%string \/ band row = "5"%string)
         (csv_rows d) /\
  toggle_band (toggle_band d) = d.
Proof.
  intros Hrun.
  assert (Hok : band_ok d).
  { assert (G : forall os d0, band_ok d0 -> run_ops os d0 = Some d -> band_ok d).
    { clear. induction os as [|o os IH]; intros d0 H0 H; simpl in H.
      - congruence.
      - destruct (run_op o d0) as [d1|] eqn:E; [|discriminate].
        apply (IH d1); [exact (run_op_band _ _ _ E H0)|exact H]. }
    apply (G os (LiveData_init w)); [|exact Hrun].
    split; [left; reflexivity|constructor]. }
  destruct Hok as [Hb Hrows]. split; [exact Hb|]. split; [exact Hrows|].
  destruct d. unfold toggle_band. simpl in *.
  destruct Hb as [-> | ->]; reflexivity.
Qed.

Lemma band_is_two_valued_witness :
  let d := toggle_band (clear_data 3 (LiveData_init 300)) in
  (current_band d = "2.4"%string \/ current_band d = "5"%string) /\
  Forall (fun row => band row = "2.4"%string \/ band row = "5"%string)
         (csv_rows d) /\
  toggle_band (toggle_band d) = d.
Proof.
  intros d. apply (band_is_two_valued 300 [OpClear 3; OpToggleBand] d).
  reflexivity.
Defined.

(** X5. A material change followed by a sample: the material stays
    current whatever the times are; every transition kept is within the
    window of the sample; the new transition is kept, last, when it is
    within the window, and dropped with the other old ones when it is
    not. *)
Theorem transition_kept_within_window m t ts r n d d' :
  append ts r n (set_material m t d) = Some d' ->
  current_material d' = m /\
  Forall (fun tm => ts - window_sec d <= fst tm) (material_transitions d') /\
  (ts - window_sec d <= t -> last (material_transitions d') = Some (t, m)) /\
  (t < ts - window_sec d ->
   material_transitions d'
   = List.filter (fun tm => Qle_bool (ts - window_sec d) (fst tm))
                 (material_transitions d)).
Proof.
  intros H. apply append_frame in H as (_ & Hm & _ & _ & _ & Ht).
  simpl in *. split; [exact Hm|]. rewrite Ht, List.filter_app. simpl.
  split; [|split].
  - apply Forall_app. split.
    + apply List.Forall_forall. intros tm Hin.
      apply List.filter_In in Hin as [_ Hin]. apply Qle_bool_iff, Hin.
    + destruct (Qle_bool (ts - window_sec d) t) eqn:E; [|constructor].
      constructor; [apply Qle_bool_iff, E|constructor].
  - intros Hle. apply Qle_bool_iff in Hle. rewrite Hle. apply last_snoc.
  - intros Hlt. apply Qle_bool_false in Hlt. rewrite Hlt. apply app_nil_r.
Qed.

Lemma transition_kept_within_window_witness :
  exists d',
    append 400 (-40) (-90) (set_material "wood" 150 (LiveData_init 300))
    = Some d' /\
    current_material d' = "wood"%string /\
    Forall (fun tm => 400 - 300 <= fst tm) (material_transitions d') /\
    last (material_transitions d') = Some (150, "wood"%string).
Proof.
  assert (H : exists d', append 400 (-40) (-90)
                           (set_material "wood" 150 (LiveData_init 300)) = Some d')
    by (eexists; vm_compute; reflexivity).
  destruct H as [d' H]. exists d'. split; [exact H|].
  destruct (transition_kept_within_window "wood" 150 400 (-40) (-90)
              (LiveData_init 300) d' H) as (Hm & Hall & Hkeep & _).
  split; [exact Hm|]. split; [exact Hall|].
  apply Hkeep. vm_compute. discriminate.
Defined.

(** ** The viewport handlers *)

(** X6. In live view, a wheel event that returns leaves the store, the
    start time, the view mode, the y-limits, the background and the
    console as they are.  Outside the axes it changes nothing at all;
    over the axes it records a display window between 10 s and the
    retention window and turns auto-scroll off. *)
Theorem wheel_zoom_window_in_range event a a' :
  is_stats_view a = false -> on_scroll event a = Some a' ->
  (inaxes event = false -> a' = a) /\
  (inaxes event = true ->
   10 <= display_window a' /\ display_window a' <= ROLLING_WINDOW_SEC /\
   auto_scroll a' = false) /\
  data a' = data a /\ start a' = start a /\ is_stats_view a' = false /\
  ylim a' = ylim a /\ facecolor a' = facecolor a /\ patches a' = patches a /\
  console a' = console a.
Proof.
  intros Hlive. unfold on_scroll. rewrite Hlive.
  destruct (inaxes event); simpl.
  - destruct (xlim a) as [xleft xright].
    destruct (Qeq_bool (xright - xleft) 0); [discriminate|].
    intros H. injection H as <-. simpl.
    split; [discriminate|]. split; [|rewrite Hlive; repeat split].
    intros _. split; [apply py_max_lower|]. split; [|reflexivity].
    apply py_max_upper; [unfold ROLLING_WINDOW_SEC; lra|apply py_min_upper].
  - intros H. injection H as <-.
    split; [reflexivity|]. split; [discriminate|]. rewrite Hlive. repeat split.
Qed.

Lemma wheel_zoom_window_in_range_witness :
  exists a', on_scroll (wheel "down") (set_xlim 0 5 (main_init 0)) = Some a' /\
             10 <= display_window a' /\ display_window a' <= ROLLING_WINDOW_SEC /\
             auto_scroll a' = false.
Proof.
  assert (H : exists a', on_scroll (wheel "down") (set_xlim 0 5 (main_init 0))
                         = Some a') by (eexists; vm_compute; reflexivity).
  destruct H as [a' H]. exists a'. split; [exact H|].
  apply (wheel_zoom_window_in_range (wheel "down") (set_xlim 0 5 (main_init 0)) a'
           eq_refl H).
  reflexivity.
Defined.

(** X10. While the statistics view is shown, no sequence of timer ticks,
    wheel events and navigation keys changes anything, and none
    raises. *)
Theorem statistics_view_freezes es a :
  is_stats_view a = true -> handle_all es a = Some a.
Proof.
  intros Hv. induction es as [|e es IH]; [reflexivity|].
  simpl. destruct e as [ts c|event|key]; simpl.
  - unfold update. rewrite Hv. simpl. exact IH.
  - unfold on_scroll. rewrite Hv. simpl. exact IH.
  - unfold on_key_press. rewrite Hv. exact IH.
Qed.

Lemma statistics_view_freezes_witness :
  let a := {| data := LiveData_init 300; start := 0; is_stats_view := true;
              auto_scroll := true; display_window := 60; xlim := (0, 1);
              ylim := (0, 1); facecolor := "#ffffff"; patches := [];
              console := [] |} in
  handle_all [Tick 1 (CmdFailed "timeout"); Wheel (wheel "up"); NavKey "left";
              Tick 2 (CmdOutput "WIFI")] a = Some a.
Proof.
  intros a. apply (statistics_view_freezes _ a). reflexivity.
Defined.

Lemma rev_map_last {A B} (f : A -> B) (l : list A) x :
  last l = Some x -> exists rest, List.rev (List.map f l) = f x :: rest.
Proof.
  intros H. apply last_Some in H as [l' ->].
  rewrite List.map_app, List.rev_app_distr. simpl. eauto.
Qed.

(** X11. [update_x_axis] leaves the viewport alone when there is no
    sample or auto-scroll is off; with auto-scroll on it sets the right
    edge 5 s after the latest sample and the left edge one display window
    before it, but not before 0, so that a latest sample at a
    non-negative elapsed time is inside the viewport. *)
Theorem update_x_axis_follows a :
  (times (data a) = [] \/ auto_scroll a = false -> update_x_axis a = a) /\
  (forall t,
     auto_scroll a = true -> last (times (data a)) = Some t ->
     xlim (update_x_axis a)
     = (py_max 0 (t - start a - display_window a), t - start a + 5) /\
     0 <= fst (xlim (update_x_axis a)) /\
     (0 <= t - start a -> 0 <= display_window a ->
      fst (xlim (update_x_axis a)) <= t - start a /\
      t - start a < snd (xlim (update_x_axis a))) /\
     data (update_x_axis a) = data a).
Proof.
  split.
  - intros [H|H]; unfold update_x_axis.
    + rewrite H. destruct a; reflexivity.
    + rewrite H. destruct (List.rev _); destruct a; reflexivity.
  - intros t Hauto Hlast. unfold update_x_axis.
    destruct (rev_map_last (fun t0 => t0 - start a) _ _ Hlast) as [rest ->].
    rewrite Hauto. simpl.
    split; [reflexivity|]. split; [apply py_max_lower|].
    split; [|reflexivity].
    intros He Hd. split; [|lra].
    apply py_max_upper; lra.
Qed.

Lemma update_x_axis_follows_witness :
  exists d, append 100 (-40) (-90) (LiveData_init 300) = Some d /\
    xlim (update_x_axis (set_data d (main_init 10))) = (py_max 0 (100 - 10 - 60), 100 - 10 + 5).
Proof.
  assert (H : exists d, append 100 (-40) (-90) (LiveData_init 300) = Some d)
    by (eexists; vm_compute; reflexivity).
  destruct H as [d H]. exists d. split; [exact H|].
  apply (proj2 (update_x_axis_follows (set_data d (main_init 10))) 100 eq_refl).
  vm_compute in H. injection H as <-. reflexivity.
Defined.

(** ** The background and the tick *)

Lemma material_color_unknown m :
  m ∉ MATERIALS -> material_color m = "#ffffff"%string.
Proof.
  intros H. unfold material_color, MATERIAL_COLORS.
  rewrite (not_elem_of_list_to_map_1 _ m); [reflexivity|exact H].
Qed.

(** [update_background_colors] writes the face colour and the spans
    only. *)
Lemma background_frame a :
  exists fc ps, update_background_colors a = set_background fc ps a.
Proof.
  unfold update_background_colors.
  repeat match goal with
         | |- context [match ?x with _ => _ end] => destruct x
         end; eauto.
Qed.

(** X12. Without a sample or without a transition, the background has no
    spans and the face colour of the current material, which is white for
    a material outside the colour table; the store is not touched. *)
Theorem background_without_transitions a :
  times (data a) = [] \/ material_transitions (data a) = [] ->
  patches (update_background_colors a) = [] /\
  facecolor (update_background_colors a)
  = material_color (current_material (data a)) /\
  (current_material (data a) ∉ MATERIALS ->
   facecolor (update_background_colors a) = "#ffffff"%string) /\
  data (update_background_colors a) = data a.
Proof.
  intros H.
  assert (E : update_background_colors a
              = set_background (material_color (current_material (data a))) [] a).
  { unfold update_background_colors. destruct H as [H|H]; rewrite H.
    - reflexivity.
    - repeat match goal with
             | |- context [match ?x with _ => _ end] => destruct x
             end; reflexivity. }
  rewrite E. simpl. repeat split. apply material_color_unknown.
Qed.

Lemma background_without_transitions_witness :
  let a := set_data (toggle_band (LiveData_init 300)) (main_init 0) in
  patches (update_background_colors a) = [] /\
  facecolor (update_background_colors a) = "#f8f9fa"%string.
Proof.
  intros a.
  destruct (background_without_transitions a (or_introl eq_refl))
    as (Hp & Hf & _).
  split; [exact Hp|]. rewrite Hf. reflexivity.
Defined.

(** *** Sorting the transitions *)

Lemma transition_lt_true p q : transition_lt p q = true -> fst p <= fst q.
Proof.
  unfold transition_lt. destruct (Qeq_bool (fst p) (fst q)) eqn:E.
  - apply Qeq_bool_iff in E. intros _. lra.
  - intros H. apply Qlt_bool_iff in H. lra.
Qed.

Lemma transition_lt_false p q : transition_lt p q = false -> fst q <= fst p.
Proof.
  unfold transition_lt. destruct (Qeq_bool (fst p) (fst q)) eqn:E.
  - apply Qeq_bool_iff in E. intros _. lra.
  - intros H. apply Qlt_bool_false in H. exact H.
Qed.

Lemma insert_sorted_Forall (P : Q * string -> Prop) p l :
  P p -> Forall P l -> Forall P (insert_sorted p l).
Proof.
  intros Hp. induction l as [|q l IH]; intros Hl; simpl.
  - constructor; [exact Hp|constructor].
  - apply Forall_cons in Hl as [Hq Hl].
    destruct (transition_lt q p); repeat constructor; auto.
Qed.

Lemma sorted_Forall (P : Q * string -> Prop) l :
  Forall P l -> Forall P (sorted l).
Proof.
  unfold sorted. induction l as [|p l IH]; intros H; simpl; [constructor|].
  apply Forall_cons in H as [Hp Hl]. apply insert_sorted_Forall; auto.
Qed.

Lemma insert_sorted_ordered p l :
  StronglySorted by_time l -> StronglySorted by_time (insert_sorted p l).
Proof.
  induction l as [|q l IH]; intros H; simpl.
  - repeat constructor.
  - apply StronglySorted_cons in H as [Hq Hl].
    destruct (transition_lt q p) eqn:E.
    + apply StronglySorted_cons. split; [|apply IH, Hl].
      apply insert_sorted_Forall; [|exact Hq].
      apply transition_lt_true, E.
    + apply transition_lt_false in E.
      apply StronglySorted_cons. split.
      * constructor; [exact E|].
        eapply Forall_impl; [exact Hq|].
        intros x Hx. unfold by_time in *. lra.
      * apply StronglySorted_cons. split; assumption.
Qed.

(** [sorted] puts the transitions in time order. *)
Lemma sorted_ordered l : StronglySorted by_time (sorted l).
Proof.
  unfold sorted. induction l as [|p l IH]; simpl; [constructor|].
  apply insert_sorted_ordered, IH.
Qed.

(** *** Extremes of a sequence *)

Lemma foldl_py_min_le x l :
  foldl py_min x l <= x /\ Forall (fun y => foldl py_min x l <= y) l.
Proof.
  revert x. induction l as [|y l IH]; intros x; simpl.
  - split; [lra|constructor].
  - destruct (IH (py_min x y)) as [H1 H2].
    assert (Hx : py_min x y <= x).
    { unfold py_min. destruct (Qlt_bool y x) eqn:E; [|lra].
      apply Qlt_bool_iff in E. lra. }
    pose proof (py_min_upper x y) as Hy.
    split; [lra|]. constructor; [lra|exact H2].
Qed.

Lemma foldl_py_max_ge x l :
  x <= foldl py_max x l /\ Forall (fun y => y <= foldl py_max x l) l.
Proof.
  revert x. induction l as [|y l IH]; intros x; simpl.
  - split; [lra|constructor].
  - destruct (IH (py_max x y)) as [H1 H2].
    pose proof (py_max_lower x y) as Hx.
    assert (Hy : y <= py_max x y).
    { unfold py_max. destruct (Qlt_bool x y) eqn:E; [lra|].
      apply Qlt_bool_false in E. exact E. }
    split; [lra|]. constructor; [lra|exact H2].
Qed.

Lemma list_min_le l m : list_min l = Some m -> Forall (fun y => m <= y) l.
Proof.
  destruct l as [|x l]; [discriminate|]. simpl. intros H. injection H as <-.
  destruct (foldl_py_min_le x l). constructor; assumption.
Qed.

Lemma list_max_ge l m : list_max l = Some m -> Forall (fun y => y <= m) l.
Proof.
  destruct l as [|x l]; [discriminate|]. simpl. intros H. injection H as <-.
  destruct (foldl_py_max_ge x l). constructor; assumption.
Qed.

Lemma list_min_le_max l lo hi :
  list_min l = Some lo -> list_max l = Some hi -> lo <= hi.
Proof.
  intros Hlo Hhi. destruct l as [|x l]; [discriminate|].
  apply list_min_le in Hlo. apply list_max_ge in Hhi.
  apply Forall_cons in Hlo as [Hlo _]. apply Forall_cons in Hhi as [Hhi _]. lra.
Qed.

(** *** The spans *)

Lemma tiles_lo lo lo' ps hi : lo == lo' -> tiles lo ps hi -> tiles lo' ps hi.
Proof.
  intros E. destruct ps as [|p ps]; simpl.
  - intros H. rewrite <- E. exact H.
  - intros (H1 & H2 & H3). repeat split; auto. rewrite <- E. exact H1.
Qed.

Lemma tiles_hi lo ps hi hi' : hi == hi' -> tiles lo ps hi -> tiles lo ps hi'.
Proof.
  intros E. revert lo. induction ps as [|p ps IH]; simpl; intros lo.
  - intros H. rewrite <- E. exact H.
  - intros (H1 & H2 & H3). repeat split; auto.
Qed.

Lemma tiles_snoc lo ps mid hi c :
  tiles lo ps mid -> mid < hi ->
  tiles lo (ps ++ [{| x0 := mid; x1 := hi; color := c |}]) hi.
Proof.
  revert lo. induction ps as [|p ps IH]; simpl; intros lo H Hlt.
  - split; [symmetry; exact H|]. split; [exact Hlt|reflexivity].
  - destruct H as (H1 & H2 & H3). repeat split; auto.
Qed.

(** Replaying transitions in time order draws spans that follow one
    another from the starting point to the last transition. *)
Lemma replay_tiles trs lo pm hi ps px m' :
  StronglySorted by_time trs ->
  Forall (fun p => lo <= fst p) trs ->
  Forall (fun p => fst p <= hi) trs ->
  lo <= hi ->
  replay lo pm trs = (ps, (px, m')) ->
  px <= hi /\ tiles lo ps px.
Proof.
  revert lo pm ps px m'.
  induction trs as [|[x m] rest IH]; intros lo pm ps px m' Hs Hlo Hhi Hle H.
  - simpl in H. injection H as <- <- <-. split; [exact Hle|simpl; reflexivity].
  - simpl in H. destruct (replay x m rest) as [ps0 [px0 m0]] eqn:E.
    apply StronglySorted_cons in Hs as [Hx Hs].
    apply Forall_cons in Hlo as [Hlox _]. apply Forall_cons in Hhi as [Hxhi Hhi].
    simpl in Hlox, Hxhi.
    destruct (IH x m ps0 px0 m0 Hs Hx Hhi Hxhi E) as [Hpx Ht].
    destruct (Qlt_bool lo x) eqn:Elt; injection H as <- <- <-.
    + split; [exact Hpx|]. simpl. apply Qlt_bool_iff in Elt.
      split; [reflexivity|]. split; [exact Elt|exact Ht].
    + split; [exact Hpx|]. apply Qlt_bool_false in Elt.
      apply (tiles_lo x lo); [lra|exact Ht].
Qed.

(** X13. With samples and at least one transition, the spans of the
    background follow one another without gap or overlap, each of
    positive width, from the elapsed time of the earliest sample to that
    of the latest; the face colour is left as it was. *)
Theorem background_spans_tile a smin smax :
  list_min (times (data a)) = Some smin ->
  list_max (times (data a)) = Some smax ->
  material_transitions (data a) <> [] ->
  tiles (smin - start a) (patches (update_background_colors a)) (smax - start a) /\
  facecolor (update_background_colors a) = facecolor a.
Proof.
  intros Hmin Hmax Hne. unfold update_background_colors.
  rewrite list_min_shift, list_max_shift, Hmin, Hmax.
  destruct (material_transitions (data a)) as [|tm0 tms] eqn:Etr; [congruence|].
  cbn [fmap option_fmap option_map].
  set (inside := List.filter _ (tm0 :: tms)).
  set (trs0 := sorted (List.map _ inside)).
  set (trs := match List.rev trs0 with
              | [] => (trs0 ++ [(smax - start a, current_material (data a))])%list
              | (_, m) :: _ =>
                  if String.eqb m (current_material (data a)) then trs0
                  else (trs0 ++ [(smax - start a, current_material (data a))])%list
              end).
  set (pm := match trs with [] => "baseline"%string | (_, m) :: _ => m end).
  pose proof (list_min_le_max _ _ _ Hmin Hmax) as Hle.
  assert (Hin : Forall (fun tm => smin <= fst tm /\ fst tm <= smax) inside).
  { apply List.Forall_forall. intros tm Htm.
    apply List.filter_In in Htm as [_ Htm]. apply andb_prop in Htm as [H1 H2].
    split; apply Qle_bool_iff; assumption. }
  assert (H0 : Forall (fun p => smin - start a <= fst p /\ fst p <= smax - start a)
                 trs0).
  { apply sorted_Forall, List.Forall_forall. intros p Hp.
    apply List.in_map_iff in Hp as (tm & <- & Htm).
    rewrite List.Forall_forall in Hin. destruct (Hin tm Htm). simpl. lra. }
  assert (Htrs : StronglySorted by_time trs /\
                 Forall (fun p => smin - start a <= fst p /\ fst p <= smax - start a)
                   trs).
  { assert (Happ : StronglySorted by_time
                     (trs0 ++ [(smax - start a, current_material (data a))]) /\
                   Forall (fun p => smin - start a <= fst p /\ fst p <= smax - start a)
                     (trs0 ++ [(smax - start a, current_material (data a))])).
    { split.
      - apply StronglySorted_app_2; [|apply sorted_ordered|repeat constructor].
        intros p q Hp Hq. apply list_elem_of_singleton in Hq as ->.
        rewrite Forall_forall in H0. destruct (H0 p Hp). unfold by_time. simpl. lra.
      - apply Forall_app. split; [exact H0|].
        constructor; [simpl; lra|constructor]. }
    subst trs. destruct (List.rev trs0) as [|[? m] ?]; [exact Happ|].
    destruct (String.eqb m (current_material (data a))); [|exact Happ].
    split; [apply sorted_ordered|exact H0]. }
  destruct Htrs as [Hs Hb].
  destruct (replay (smin - start a) pm trs) as [ps [px m']] eqn:E.
  destruct (replay_tiles trs (smin - start a) pm (smax - start a) ps px m' Hs)
    as [Hpx Ht]; [| |lra|exact E|].
  { eapply Forall_impl; [exact Hb|]. intros p [? _]. assumption. }
  { eapply Forall_impl; [exact Hb|]. intros p [_ ?]. assumption. }
  destruct (Qlt_bool px (smax - start a)) eqn:Elt; simpl.
  - split; [|reflexivity]. apply Qlt_bool_iff in Elt.
    apply tiles_snoc; assumption.
  - split; [|reflexivity]. apply Qlt_bool_false in Elt.
    apply (tiles_hi _ _ px); [lra|exact Ht].
Qed.

Lemma background_spans_tile_witness :
  let a := set_data
             (set_material "glass" 25
                (set_material "wood" 10
                   {| window_sec := 300; times := [0; 15; 30];
                      rssi := [-40; -45; -50]; noise := [-90; -90; -90];
                      snr := [50; 45; 40]; snr_by_material := ∅;
                      material_events := []; current_material := "baseline";
                      current_band := "2.4"; csv_rows := [];
                      material_transitions := [] |}))
             (main_init 0) in
  tiles (0 - 0) (patches (update_background_colors a)) (30 - 0).
Proof.
  intros a.
  apply (background_spans_tile a 0 30); [reflexivity|reflexivity|discriminate].
Defined.

(** *** A tick that gets a sample *)

Lemma update_x_axis_frame a :
  exists l r, update_x_axis a = set_xlim l r a.
Proof.
  unfold update_x_axis. destruct a as [d s v au dw [l r] y f p c]. simpl.
  destruct (List.rev _); [eauto|]. destruct au; eauto.
Qed.

(** A tick that reads a sample and returns has appended it, and has
    left the variables of [main] alone. *)
Lemma update_returns ts c r n a a' :
  is_stats_view a = false ->
  read_wifi_metrics_macos c = Return (r, n) ->
  update ts c a = Some a' ->
  append ts r n (data a) = Some (data a') /\
  (start a', is_stats_view a', auto_scroll a', display_window a', console a')
  = (start a, is_stats_view a, auto_scroll a, display_window a, console a).
Proof.
  intros Hlive Hread. unfold update. rewrite Hlive, Hread.
  destruct (append ts r n (data a)) as [d|] eqn:Happ; [|discriminate].
  simpl. intros H. injection H as <-.
  set (a1 := update_x_axis (set_data d a)).
  set (a2 := match list_min (rssi d ++ noise d ++ snr d),
                   list_max (rssi d ++ noise d ++ snr d) with
             | Some lo, Some hi => set_ylim (lo - 5) (hi + 5) a1
             | _, _ => a1
             end).
  destruct (background_frame a2) as (fc & ps & ->).
  assert (E2 : (exists yl yh, a2 = set_ylim yl yh a1) \/ a2 = a1).
  { subst a2. destruct (list_min (rssi d ++ noise d ++ snr d)),
                      (list_max (rssi d ++ noise d ++ snr d)); eauto. }
  destruct (update_x_axis_frame (set_data d a)) as (l & rr & E1).
  fold a1 in E1.
  cbn [set_background data start is_stats_view auto_scroll display_window console].
  destruct E2 as [(yl & yh & ->) | ->]; rewrite E1;
    (split; [reflexivity|simpl; rewrite ?Hlive; reflexivity]).
Qed.

(** X14. In live view, a tick whose command output parses to [(r, n)]
    and which returns has recorded that one sample: the store is what
    [append] returns, so the log has gained exactly one row, with the
    tick's time, the signal, the noise and their difference, tagged with
    the current band and material, and aligned deques are still aligned;
    the start time, the view mode, the navigation state and the console
    are left alone. *)
Theorem tick_records_one_sample ts c r n a a' :
  is_stats_view a = false ->
  read_wifi_metrics_macos c = Return (r, n) ->
  update ts c a = Some a' ->
  append ts r n (data a) = Some (data a') /\
  (aligned (data a) -> aligned (data a')) /\
  csv_rows (data a')
  = csv_rows (data a)
    ++ [{| timestamp := ts; band := current_band (data a);
           material := current_material (data a);
           rssi_dbm := r; noise_dbm := n; snr_db := r - n |}] /\
  (start a', is_stats_view a', auto_scroll a', display_window a', console a')
  = (start a, is_stats_view a, auto_scroll a, display_window a, console a).
Proof.
  intros Hlive Hread Hup.
  destruct (update_returns _ _ _ _ _ _ Hlive Hread Hup) as [Happ Hrest].
  split; [exact Happ|]. split; [|split; [|exact Hrest]].
  - intros (Hr & Hn & Hs).
    destruct (evict_aligned (ts - window_sec (data a)) (times (data a) ++ [ts])
                (rssi (data a) ++ [r]) (noise (data a) ++ [n])
                (snr (data a) ++ [r - n]))
      as (ts' & rs' & ns' & ss' & He & H1 & H2 & H3 & _);
      [rewrite !length_app; simpl; lia..|].
    unfold append in Happ. rewrite He in Happ. simpl in Happ.
    injection Happ as <-. repeat split; assumption.
  - apply (append_frame _ _ _ _ _ Happ).
Qed.

Lemma tick_records_one_sample_witness :
  exists a',
    update 12 (CmdOutput ("WIFI" ++ lf ++ "RSSI : -40 dBm" ++ lf
                          ++ "Noise : -90 dBm" ++ lf)%string) (main_init 10)
    = Some a' /\
    csv_rows (data a')
    = [{| timestamp := 12; band := "2.4"; material := "baseline";
          rssi_dbm := inject_Z (-40); noise_dbm := inject_Z (-90);
          snr_db := inject_Z (-40) - inject_Z (-90) |}].
Proof.
  assert (H : exists a',
             update 12 (CmdOutput ("WIFI" ++ lf ++ "RSSI : -40 dBm" ++ lf
                                   ++ "Noise : -90 dBm" ++ lf)%string)
                    (main_init 10) = Some a')
    by (eexists; vm_compute; reflexivity).
  destruct H as [a' H]. exists a'. split; [exact H|].
  apply (tick_records_one_sample 12
           (CmdOutput ("WIFI" ++ lf ++ "RSSI : -40 dBm" ++ lf
                       ++ "Noise : -90 dBm" ++ lf)%string)
           (inject_Z (-40)) (inject_Z (-90)) (main_init 10) a' eq_refl);
    [vm_compute; reflexivity|exact H].
Defined.



(** ** More on the Metric Parser *)

Local Open Scope string_scope.

(** X16. A text with no line that is the WIFI marker, the empty text
    among them, makes the parser raise, whatever RSSI and Noise lines it
    has. *)
Theorem no_wifi_section_raises txt :
  no_marker (splitlines txt) = true ->
  parse_wdutil_output txt = Raise PARSE_ERROR.
Proof.
  intros H. unfold parse_wdutil_output.
  rewrite (scan_lines_outside scan_init _ eq_refl H). reflexivity.
Qed.

Lemma no_wifi_section_raises_witness :
  parse_wdutil_output
    ("BLUETOOTH" ++ lf ++ "RSSI : -55 dBm" ++ lf ++ "Noise : -80 dBm" ++ lf)
  = Raise PARSE_ERROR /\
  parse_wdutil_output "" = Raise PARSE_ERROR.
Proof.
  split; apply no_wifi_section_raises; reflexivity.
Defined.

Lemma scan_line_passed_over st raw :
  passed_over raw = true -> scan_line st raw = st.
Proof.
  unfold passed_over. intros H.
  apply andb_prop in H as [H Hrest]. apply andb_prop in H as [Hm Hh].
  apply negb_true_iff in Hm. apply negb_true_iff in Hh.
  destruct (in_wifi_section st) eqn:Hf.
  2:{ apply scan_line_outside; assumption. }
  destruct (startswith SEPARATOR (strip raw)) eqn:Hsep.
  { apply scan_line_separator; assumption. }
  simpl in Hrest. apply andb_prop in Hrest as [Hr Hn].
  apply bool_decide_eq_true in Hr. apply bool_decide_eq_true in Hn.
  rewrite (scan_line_data _ _ Hm Hf Hsep Hh), Hr, Hn.
  destruct st. simpl in Hf. subst. reflexivity.
Qed.

Lemma scan_lines_replace st before raw1 raw2 after :
  (forall st', scan_line st' raw1 = scan_line st' raw2) ->
  scan_lines st (before ++ raw1 :: after)%list
  = scan_lines st (before ++ raw2 :: after)%list.
Proof.
  intros H. unfold scan_lines. rewrite !foldl_app. cbn [foldl].
  rewrite H. reflexivity.
Qed.

(** X17. A blank line and a separator line are passed over, and a line
    that is passed over (not the marker, not a section header, and a
    separator or a line giving no value) can be taken out of the text,
    wherever it stands, without changing the result. *)
Theorem passed_over_lines_do_nothing :
  (forall raw, strip raw = "" \/ startswith SEPARATOR (strip raw) = true ->
               passed_over raw = true) /\
  (forall txt1 txt2 before raw after,
     splitlines txt1 = (before ++ raw :: after)%list ->
     splitlines txt2 = (before ++ after)%list ->
     passed_over raw = true ->
     parse_wdutil_output txt1 = parse_wdutil_output txt2).
Proof.
  split.
  - intros raw H. unfold passed_over, is_wifi_marker, is_section_header.
    destruct H as [H|H]; rewrite H.
    + reflexivity.
    + destruct (String.eqb_spec (strip raw) "WIFI") as [E|_].
      * rewrite E in H. vm_compute in H. discriminate.
      * simpl. rewrite andb_false_r. reflexivity.
  - intros txt1 txt2 before raw after H1 H2 Hp.
    unfold parse_wdutil_output. rewrite H1, H2.
    unfold scan_lines. rewrite !foldl_app. cbn [foldl].
    rewrite (scan_line_passed_over _ _ Hp). reflexivity.
Qed.

Lemma passed_over_lines_do_nothing_witness :
  parse_wdutil_output
    ("WIFI" ++ lf ++ SEPARATOR ++ lf ++ "RSSI : -40 dBm" ++ lf
     ++ "Noise : -90 dBm" ++ lf)
  = parse_wdutil_output
      ("WIFI" ++ lf ++ "RSSI : -40 dBm" ++ lf ++ "Noise : -90 dBm" ++ lf).
Proof.
  destruct passed_over_lines_do_nothing as [Hsep Hdrop].
  apply (Hdrop _ _ ["WIFI"] SEPARATOR ["RSSI : -40 dBm"; "Noise : -90 dBm"]);
    [reflexivity|reflexivity|].
  apply Hsep. right. reflexivity.
Defined.

Lemma lstrip_pad pad s :
  all_chars py_isspace pad = true -> lstrip (pad ++ s) = lstrip s.
Proof.
  induction pad as [|c pad IH]; [reflexivity|].
  cbn [all_chars]. intros H. apply andb_prop in H as [Hc Hp].
  rewrite string_app_cons. cbn [lstrip]. rewrite Hc. apply IH, Hp.
Qed.

Lemma rstrip_spaces pad : all_chars py_isspace pad = true -> rstrip pad = "".
Proof.
  induction pad as [|c pad IH]; [reflexivity|].
  cbn [all_chars]. intros H. apply andb_prop in H as [Hc Hp].
  cbn [rstrip]. rewrite (IH Hp), Hc. reflexivity.
Qed.

Lemma rstrip_pad s pad :
  all_chars py_isspace pad = true -> rstrip (s ++ pad) = rstrip s.
Proof.
  intros Hp. induction s as [|c s IH].
  - change ("" ++ pad) with pad. apply rstrip_spaces, Hp.
  - rewrite string_app_cons. cbn [rstrip]. rewrite IH. reflexivity.
Qed.

Lemma lstrip_app s pad :
  all_chars py_isspace pad = true ->
  rstrip (lstrip (s ++ pad)) = rstrip (lstrip s).
Proof.
  intros Hp. induction s as [|c s IH].
  - change ("" ++ pad) with pad. cbn [lstrip rstrip].
    assert (E : lstrip pad = "").
    { clear -Hp. induction pad as [|c pad IH]; [reflexivity|].
      cbn [all_chars] in Hp. apply andb_prop in Hp as [Hc Hp].
      cbn [lstrip]. rewrite Hc. apply IH, Hp. }
    rewrite E. reflexivity.
  - rewrite string_app_cons. cbn [lstrip]. destruct (py_isspace c); [exact IH|].
    rewrite <- string_app_cons. apply rstrip_pad, Hp.
Qed.

Lemma strip_pad pad1 s pad2 :
  all_chars py_isspace pad1 = true -> all_chars py_isspace pad2 = true ->
  strip (pad1 ++ s ++ pad2) = strip s.
Proof.
  intros H1 H2. unfold strip. rewrite (lstrip_pad _ _ H1). apply lstrip_app, H2.
Qed.

(** X18. White space before and after a line is ignored: padding any
    line of the text with spaces or tabs on either side does not change
    the result. *)
Theorem padding_is_ignored txt1 txt2 before pad1 raw pad2 after :
  all_chars py_isspace pad1 = true -> all_chars py_isspace pad2 = true ->
  splitlines txt1 = (before ++ (pad1 ++ raw ++ pad2)%string :: after)%list ->
  splitlines txt2 = (before ++ raw :: after)%list ->
  parse_wdutil_output txt1 = parse_wdutil_output txt2.
Proof.
  intros Hp1 Hp2 H1 H2. unfold parse_wdutil_output. rewrite H1, H2.
  rewrite (scan_lines_replace scan_init before (pad1 ++ raw ++ pad2) raw after);
    [reflexivity|].
  intros st. unfold scan_line. rewrite (strip_pad _ _ _ Hp1 Hp2). reflexivity.
Qed.

Lemma padding_is_ignored_witness :
  parse_wdutil_output
    ("WIFI" ++ lf ++ "    RSSI                 : -40 dBm  " ++ lf
     ++ "Noise : -90 dBm" ++ lf)
  = parse_wdutil_output
      ("WIFI" ++ lf ++ "RSSI                 : -40 dBm" ++ lf
       ++ "Noise : -90 dBm" ++ lf).
Proof.
  apply (padding_is_ignored _ _ ["WIFI"] "    "
           "RSSI                 : -40 dBm" "  " ["Noise : -90 dBm"]);
    reflexivity.
Defined.

Local Close Scope string_scope.

(** ** The key handler *)

Lemma material_keys_values key m :
  MATERIAL_KEYS !! key = Some m -> m ∈ MATERIALS.
Proof.
  unfold MATERIAL_KEYS, MATERIALS. intros H.
  apply elem_of_list_to_map_2 in H.
  repeat (apply elem_of_cons in H as [H | H];
          [injection H as _ ->; repeat constructor|]).
  apply elem_of_nil in H. contradiction.
Qed.

(** X19. While the statistics view is shown, the material keys and the
    band key do nothing at all: the store, the console and every variable
    stay as they are. *)
Theorem keys_ignored_in_statistics_view f key t now v :
  Keys.is_stats_view v = true ->
  is_Some (MATERIAL_KEYS !! key) \/ key = "b"%string ->
  Keys.on_key f key t now v = v.
Proof.
  intros Hv H. unfold Keys.on_key.
  destruct (MATERIAL_KEYS !! key) as [m|] eqn:E.
  - rewrite Hv. reflexivity.
  - destruct H as [[m Hm] | ->]; [discriminate|]. simpl. rewrite Hv. reflexivity.
Qed.

Lemma keys_ignored_in_statistics_view_witness :
  let v := {| Keys.data := LiveData_init 300; Keys.start := 0;
              Keys.is_stats_view := true; Keys.auto_scroll := true;
              Keys.display_window := 60; Keys.console := [];
              Keys.saved := []; Keys.closed := false |} in
  Keys.on_key "out.csv" "2" 5 5 v = v /\ Keys.on_key "out.csv" "b" 6 6 v = v.
Proof.
  intros v. split.
  - apply (keys_ignored_in_statistics_view "out.csv" "2" 5 5 v eq_refl).
    left. vm_compute. eauto.
  - apply (keys_ignored_in_statistics_view "out.csv" "b" 6 6 v eq_refl).
    right. reflexivity.
Defined.

(** X20. Entering the statistics view and leaving it again never clears
    anything: the store, the start time, the files written and the
    closed flag are as before, the live view is shown, and auto-scroll is
    on with the default display window. *)
Theorem statistics_round_trip f t1 now1 t2 now2 v :
  let v' := Keys.on_key f "c" t2 now2 (Keys.on_key f "s" t1 now1 v) in
  Keys.data v' = Keys.data v /\
  Keys.start v' = Keys.start v /\
  Keys.is_stats_view v' = false /\
  Keys.auto_scroll v' = true /\
  Keys.display_window v' = DISPLAY_WINDOW_SEC /\
  Keys.saved v' = Keys.saved v /\
  Keys.closed v' = Keys.closed v.
Proof.
  assert (Es : MATERIAL_KEYS !! "s"%string = None) by reflexivity.
  assert (Ec : MATERIAL_KEYS !! "c"%string = None) by reflexivity.
  unfold Keys.on_key. rewrite Es, Ec. simpl. repeat split.
Qed.

(** X21. The key "c" clears only in live view: there the store becomes
    what [clear_data] returns and the start time the time of the key
    press; in the statistics view the store and the start time are kept.
    Either way the live view is shown afterwards, with auto-scroll on and
    the default display window. *)
Theorem clear_key_by_mode f t now v :
  (Keys.is_stats_view v = false ->
   Keys.data (Keys.on_key f "c" t now v) = clear_data now (Keys.data v) /\
   Keys.start (Keys.on_key f "c" t now v) = t) /\
  (Keys.is_stats_view v = true ->
   Keys.data (Keys.on_key f "c" t now v) = Keys.data v /\
   Keys.start (Keys.on_key f "c" t now v) = Keys.start v) /\
  Keys.is_stats_view (Keys.on_key f "c" t now v) = false /\
  Keys.auto_scroll (Keys.on_key f "c" t now v) = true /\
  Keys.display_window (Keys.on_key f "c" t now v) = DISPLAY_WINDOW_SEC.
Proof.
  assert (Ec : MATERIAL_KEYS !! "c"%string = None) by reflexivity.
  unfold Keys.on_key. rewrite Ec. simpl.
  destruct (Keys.is_stats_view v) eqn:Hv; simpl; repeat split;
    try discriminate; try assumption.
Qed.

Lemma clear_key_by_mode_witness :
  let v := {| Keys.data := set_material "wood" 2 (LiveData_init 300);
              Keys.start := 0; Keys.is_stats_view := false;
              Keys.auto_scroll := false; Keys.display_window := 20;
              Keys.console := []; Keys.saved := []; Keys.closed := false |} in
  Keys.data (Keys.on_key "out.csv" "c" 9 9 v)
  = clear_data 9 (set_material "wood" 2 (LiveData_init 300)) /\
  Keys.start (Keys.on_key "out.csv" "c" 9 9 v) = 9.
Proof.
  intros v. apply (proj1 (clear_key_by_mode "out.csv" 9 9 v)). reflexivity.
Defined.

Lemma on_key_condition f key t now v :
  Keys.condition_ok (Keys.data v) ->
  Keys.condition_ok (Keys.data (Keys.on_key f key t now v)).
Proof.
  intros [Hm Hb]. unfold Keys.on_key.
  destruct (MATERIAL_KEYS !! key) as [m|] eqn:E.
  - destruct (Keys.is_stats_view v); [split; assumption|].
    split; [exact (material_keys_values _ _ E)|exact Hb].
  - destruct (String.eqb key "b").
    { destruct (Keys.is_stats_view v); [split; assumption|].
      split; [exact Hm|]. simpl.
      destruct (String.eqb (current_band (Keys.data v)) "2.4"); auto. }
    destruct (String.eqb key "s"); [split; assumption|].
    destruct (String.eqb key "c").
    { destruct (Keys.is_stats_view v); [split; assumption|].
      split; [|exact Hb]. apply list_elem_of_here. }
    destruct (String.eqb key "q"); split; assumption.
Qed.

(** X22. Whatever keys are pressed, the current material stays one of the
    seven materials of [MATERIAL_KEYS] and the band "2.4" or "5", so the
    colour lookup never falls back to white. *)
Theorem keys_keep_condition f presses v :
  Keys.condition_ok (Keys.data v) ->
  Keys.condition_ok (Keys.data (Keys.on_keys f presses v)) /\
  material_color (current_material (Keys.data (Keys.on_keys f presses v)))
  <> "#ffffff"%string.
Proof.
  intros H.
  assert (G : Keys.condition_ok (Keys.data (Keys.on_keys f presses v))).
  { unfold Keys.on_keys. revert v H.
    induction presses as [|p ps IH]; intros v H; [exact H|].
    simpl. apply IH, on_key_condition, H. }
  split; [exact G|]. destruct G as [Hm _].
  unfold MATERIALS in Hm.
  repeat (apply elem_of_cons in Hm as [-> | Hm]; [vm_compute; discriminate|]).
  apply elem_of_nil in Hm. contradiction.
Qed.

Lemma keys_keep_condition_witness :
  let v := {| Keys.data := LiveData_init 300; Keys.start := 0;
              Keys.is_stats_view := false; Keys.auto_scroll := true;
              Keys.display_window := 60; Keys.console := [];
              Keys.saved := []; Keys.closed := false |} in
  Keys.condition_ok
    (Keys.data (Keys.on_keys "out.csv" [("4", 1, 1); ("b", 2, 2); ("x", 3, 3);
                                        ("c", 4, 4)]%string v)).
Proof.
  intros v. apply (keys_keep_condition "out.csv" _ v).
  split; [apply list_elem_of_here|left; reflexivity].
Defined.

(** ** Auto-scroll and the display window *)

Lemma handle_keeps_default_window e a a' :
  (auto_scroll a = true -> display_window a = DISPLAY_WINDOW_SEC) ->
  handle e a = Some a' ->
  auto_scroll a' = true -> display_window a' = DISPLAY_WINDOW_SEC.
Proof.
  intros Hinv. destruct e as [ts c|event|key]; simpl.
  - destruct (is_stats_view a) eqn:Hv.
    { unfold update. rewrite Hv. intros H. injection H as <-. exact Hinv. }
    destruct (read_wifi_metrics_macos c) as [[r n]|e] eqn:Hread.
    + intros Hup.
      destruct (update_returns _ _ _ _ _ _ Hv Hread Hup) as [_ Hrest].
      injection Hrest as _ _ -> -> _. exact Hinv.
    + unfold update. rewrite Hv, Hread. intros H. injection H as <-. exact Hinv.
  - unfold on_scroll. destruct (is_stats_view a).
    { intros H. injection H as <-. exact Hinv. }
    destruct (inaxes event); simpl.
    2:{ intros H. injection H as <-. exact Hinv. }
    destruct (xlim a) as [xleft xright].
    destruct (Qeq_bool (xright - xleft) 0); [discriminate|].
    intros H. injection H as <-. discriminate.
  - intros H. injection H as <-. unfold on_key_press.
    destruct (is_stats_view a); [exact Hinv|].
    destruct (xlim a) as [xleft xright].
    repeat (match goal with
            | |- context [String.eqb key ?k] => destruct (String.eqb key k)
            end; [simpl; first [reflexivity | discriminate]|]).
    exact Hinv.
Qed.

Lemma on_key_keeps_default_window f key t now v :
  (Keys.auto_scroll v = true -> Keys.display_window v = DISPLAY_WINDOW_SEC) ->
  Keys.auto_scroll (Keys.on_key f key t now v) = true ->
  Keys.display_window (Keys.on_key f key t now v) = DISPLAY_WINDOW_SEC.
Proof.
  intros Hinv. unfold Keys.on_key.
  destruct (MATERIAL_KEYS !! key).
  { destruct (Keys.is_stats_view v); exact Hinv. }
  destruct (String.eqb key "b"). { destruct (Keys.is_stats_view v); exact Hinv. }
  destruct (String.eqb key "s"); [exact Hinv|].
  destruct (String.eqb key "c"). { destruct (Keys.is_stats_view v); reflexivity. }
  destruct (String.eqb key "q"); exact Hinv.
Qed.

(** X23. Whenever auto-scroll is on, the display window is the default
    60 s: this holds when [main] starts and is kept by every timer tick,
    wheel event and navigation key, and by every key of [on_key].  So a
    width chosen with the wheel or the zoom keys is never the one the
    auto-scroll viewport uses. *)
Theorem auto_scroll_uses_default_window :
  (forall es a a',
     (auto_scroll a = true -> display_window a = DISPLAY_WINDOW_SEC) ->
     handle_all es a = Some a' ->
     auto_scroll a' = true -> display_window a' = DISPLAY_WINDOW_SEC) /\
  (forall f presses v,
     (Keys.auto_scroll v = true -> Keys.display_window v = DISPLAY_WINDOW_SEC) ->
     Keys.auto_scroll (Keys.on_keys f presses v) = true ->
     Keys.display_window (Keys.on_keys f presses v) = DISPLAY_WINDOW_SEC).
Proof.
  split.
  - induction es as [|e es IH]; intros a a' Hinv; simpl.
    + intros H. injection H as <-. exact Hinv.
    + destruct (handle e a) as [a1|] eqn:He; [|discriminate]. simpl.
      apply IH. exact (handle_keeps_default_window e a a1 Hinv He).
  - intros f presses. unfold Keys.on_keys.
    induction presses as [|p ps IH]; intros v Hinv; [exact Hinv|].
    simpl. apply IH. apply on_key_keeps_default_window, Hinv.
Qed.

Lemma auto_scroll_uses_default_window_witness :
  exists a',
    handle_all [Wheel (wheel "down"); NavKey "up"; NavKey "home"]
               (set_xlim 0 60 (main_init 0)) = Some a' /\
    display_window a' = DISPLAY_WINDOW_SEC.
Proof.
  assert (H : exists a',
             handle_all [Wheel (wheel "down"); NavKey "up"; NavKey "home"]
                        (set_xlim 0 60 (main_init 0)) = Some a')
    by (eexists; vm_compute; reflexivity).
  destruct H as [a' H]. exists a'. split; [exact H|].
  apply (proj1 auto_scroll_uses_default_window _ (set_xlim 0 60 (main_init 0)) a'
           (fun _ => eq_refl) H).
  vm_compute in H. injection H as <-. reflexivity.
Defined.
